(** * EcoRoute ML service: the prediction adjustment pipeline

  A shallow embedding of [ml_service/app.py] (the [/predict] handler and
  its tables) and of the tables of [ml_service/train_model.py].

  Python [float] is IEEE 754 binary64 with round-to-nearest-even; it is
  modelled by Rocq's primitive [float], whose operations are specified by
  [SpecFloat].  Python [int] is [Z], [str] is [string], the module-level
  dictionaries are [gmap]s keyed by strings, and the dictionaries with a
  fixed set of keys (a vehicle's factors, the handler's answer) are
  records.  An exception is a [Raises] outcome. *)

From Stdlib Require Import ZArith Floats Lia Bool.
From stdpp Require Import base option list gmap strings.

Set Warnings "-inexact-float".

(** ** Python values and outcomes *)

Module Py.

(** An entry of the feature row: an [int] or a [float]. *)
Inductive num : Type :=
| Int (z : Z)
| Float (f : float).

(** What the handler can raise: [KeyError] for a missing dictionary key,
    and whatever the regressor raises. *)
Inductive exn : Type :=
| KeyError (key : string)
| PredictorFailure.

(** What a call does: it returns a value or raises. *)
Inductive outcome (A : Type) : Type :=
| Returns (a : A)
| Raises (e : exn).
Arguments Returns {A} a.
Arguments Raises {A} e.

Definition bind {A B : Type} (c : outcome A) (k : A -> outcome B) : outcome B :=
  match c with
  | Returns a => k a
  | Raises e => Raises e
  end.

(** [d[k]] *)
Definition getitem {V : Type} (d : gmap string V) (k : string) : outcome V :=
  match d !! k with
  | Some v => Returns v
  | None => Raises (KeyError k)
  end.

(** [d.get(k, dflt)] *)
Definition get {V : Type} (d : gmap string V) (k : string) (dflt : V) : V :=
  default dflt (d !! k).

(** [max(a, b)] on floats: the first argument is kept unless the second
    compares strictly greater. *)
Definition max (a b : float) : float :=
  if (a <? b)%float then b else a.

(** [x in l] for a list of strings. *)
Definition contains (l : list string) (x : string) : bool :=
  existsb (String.eqb x) l.

End Py.

(** Sequencing of calls, written [x ← c; k]. *)
Global Instance outcome_bind : MBind Py.outcome := fun A B k c => Py.bind c k.

(** ** [ml_service/app.py] *)

Module App.
Import Py.

(** A value of [VEHICLE_FACTORS]: [{"weight", "co2_factor", "energy_mode"}]. *)
Record Factors : Type := mkFactors {
  weight : Z;
  co2_factor : float;
  energy_mode : string
}.

(** [VEHICLE_FACTORS], lines 10-20. *)
Definition VEHICLE_FACTORS : gmap string Factors :=
  <["car" := mkFactors 1200 1.0 "fuel"]>
  (<["van" := mkFactors 2500 1.4 "fuel"]>
  (<["bike" := mkFactors 200 0.2 "fuel"]>
  (<["ev" := mkFactors 1800 0.0 "electric"]>
  (<["cargo_ship" := mkFactors 500000 8.0 "fuel"]>
  (<["tanker" := mkFactors 700000 10.0 "fuel"]>
  (<["ferry" := mkFactors 100000 5.0 "fuel"]> ∅)))))).

(** [class Features(BaseModel)], lines 22-31: the validated request. *)
Record Features : Type := mkFeatures {
  distance_km : float;
  elevation_gain_m : float;
  avg_speed_kph : float;
  turns : Z;
  humps : Z;
  weight_kg : float;
  traffic_index : float;
  route_type : string;
  vehicle : string
}.

(** The dictionary [predict] returns; ["energy_kwh"] is present only in
    the electric answer. *)
Record Prediction : Type := mkPrediction {
  fuel_l : float;
  energy_kwh : option float;
  co2_kg : float
}.

(** [route_map], line 43. *)
Definition route_map : gmap string Z :=
  <["fast" := 0%Z]> (<["eco" := 1%Z]> (<["safe" := 2%Z]> ∅)).

(** [predict], lines 41-95.  [model] stands for the loaded regressor as
    the handler uses it: [model.predict(X)[0]] read as two floats (lines
    64-65).  [X] is the row as the handler writes it; turning it into the
    regressor's array of floats belongs to that call. *)
Definition predict (model : list num -> outcome (float * float))
    (feat : Features) : outcome Prediction :=
  let route_type_val := get route_map (route_type feat) 0%Z in
  car ← getitem VEHICLE_FACTORS "car";
  let v := get VEHICLE_FACTORS (vehicle feat) car in
  let base_weight := weight v in
  let co2_factor := co2_factor v in
  let energy_mode := energy_mode v in
  let X := [ Float (distance_km feat);
             Float (elevation_gain_m feat);
             Float (avg_speed_kph feat);
             Int (turns feat);
             Int (humps feat);
             Int base_weight;
             Float (traffic_index feat);
             Int route_type_val ] in
  '(fuel, co2) ← model X;
  let co2 := (co2 * co2_factor)%float in
  let fuel := (fuel * max 1.0 (co2_factor / 2.0))%float in
  if String.eqb energy_mode "electric" then
    let energy_kwh := (distance_km feat * 0.2)%float in
    Returns {| fuel_l := 0.0; energy_kwh := Some energy_kwh; co2_kg := co2 |}
  else
    let '(fuel, co2) :=
      if contains ["cargo_ship"; "tanker"; "ferry"] (vehicle feat) then
        if String.eqb (route_type feat) "eco" then
          ((fuel * 0.85)%float, (co2 * 0.85)%float)
        else if String.eqb (route_type feat) "safe" then
          ((fuel * 1.2)%float, (co2 * 1.2)%float)
        else (fuel, co2)
      else (fuel, co2) in
    Returns {| fuel_l := fuel; energy_kwh := None; co2_kg := co2 |}.

(** *** The stages of [predict]

    The same lines, cut into the steps that the properties speak of;
    [Properties.predict_stages] shows that [predict] is their
    composition. *)

(** Line 44: [route_map.get(feat.route_type, 0)]. *)
Definition route_type_val (feat : Features) : Z :=
  get route_map (route_type feat) 0%Z.

(** Line 47: [VEHICLE_FACTORS.get(feat.vehicle, VEHICLE_FACTORS["car"])];
    the default is evaluated before the call. *)
Definition vehicle_factors (feat : Features) : outcome Factors :=
  car ← getitem VEHICLE_FACTORS "car";
  Returns (get VEHICLE_FACTORS (vehicle feat) car).

(** Lines 52-61: the single row of [X]. *)
Definition feature_row (feat : Features) (base_weight route_type_val : Z) : list num :=
  [ Float (distance_km feat);
    Float (elevation_gain_m feat);
    Float (avg_speed_kph feat);
    Int (turns feat);
    Int (humps feat);
    Int base_weight;
    Float (traffic_index feat);
    Int route_type_val ].

(** Lines 68-69: scaling by vehicle type, as the pair [(fuel, co2)]. *)
Definition vehicle_scaling (co2_factor fuel co2 : float) : float * float :=
  let co2 := (co2 * co2_factor)%float in
  let fuel := (fuel * max 1.0 (co2_factor / 2.0))%float in
  (fuel, co2).

(** Lines 82-90: the extra adjustment for ships. *)
Definition ship_adjustment (feat : Features) (fuel co2 : float) : float * float :=
  if contains ["cargo_ship"; "tanker"; "ferry"] (vehicle feat) then
    if String.eqb (route_type feat) "eco" then
      ((fuel * 0.85)%float, (co2 * 0.85)%float)
    else if String.eqb (route_type feat) "safe" then
      ((fuel * 1.2)%float, (co2 * 1.2)%float)
    else (fuel, co2)
  else (fuel, co2).

(** Lines 71-95: energy mode handling, ships, and the answer. *)
Definition mode_and_route (feat : Features) (energy_mode : string)
    (fuel co2 : float) : Prediction :=
  if String.eqb energy_mode "electric" then
    let energy_kwh := (distance_km feat * 0.2)%float in
    {| fuel_l := 0.0; energy_kwh := Some energy_kwh; co2_kg := co2 |}
  else
    let '(fuel, co2) := ship_adjustment feat fuel co2 in
    {| fuel_l := fuel; energy_kwh := None; co2_kg := co2 |}.

(** Lines 67-95: everything after the regressor has answered. *)
Definition adjust (feat : Features) (v : Factors) (fuel co2 : float) : Prediction :=
  let '(fuel, co2) := vehicle_scaling (co2_factor v) fuel co2 in
  mode_and_route feat (energy_mode v) fuel co2.

End App.

(** ** [ml_service/train_model.py]: the tables *)

Module TrainModel.

(** [VEHICLE_FACTORS], lines 11-19. *)
Definition VEHICLE_FACTORS : gmap string App.Factors :=
  <["car" := App.mkFactors 1200 1.0 "fuel"]>
  (<["van" := App.mkFactors 2500 1.4 "fuel"]>
  (<["bike" := App.mkFactors 200 0.2 "fuel"]>
  (<["ev" := App.mkFactors 1800 0.0 "electric"]>
  (<["cargo_ship" := App.mkFactors 500000 8.0 "fuel"]>
  (<["tanker" := App.mkFactors 700000 10.0 "fuel"]>
  (<["ferry" := App.mkFactors 100000 5.0 "fuel"]> ∅)))))).

(** [ROUTE_TYPES], line 21. *)
Definition ROUTE_TYPES : gmap string Z :=
  <["fast" := 0%Z]> (<["eco" := 1%Z]> (<["safe" := 2%Z]> ∅)).

End TrainModel.

(** ** Around [predict]: start-up, request bodies, the trainer's data *)

Module Runtime.

(** What the code around the handler can raise; [Raised] carries what a
    library or the system raises, by the name of its class. *)
Inductive error : Type :=
| KeyError (key : string)
| ZeroDivisionError
| OverflowError
| RuntimeError (message : string)
| ValidationError (field : string)
| Raised (name : string).

Inductive result (A : Type) : Type :=
| Done (a : A)
| Failed (e : error).
Arguments Done {A} a.
Arguments Failed {A} e.

Definition bind {A B : Type} (c : result A) (k : A -> result B) : result B :=
  match c with
  | Done a => k a
  | Failed e => Failed e
  end.

(** [d[k]] *)
Definition getitem {V : Type} (d : gmap string V) (k : string) : result V :=
  match d !! k with
  | Some v => Done v
  | None => Failed (KeyError k)
  end.

(** A Python [int] as the exact number it is. *)
Definition Z2SF (z : Z) : spec_float :=
  match z with
  | Z0 => S754_zero false
  | Zpos p => S754_finite false p 0
  | Zneg p => S754_finite true p 0
  end.

(** [a / b] on two [int]s: the quotient rounded once to binary64;
    [ZeroDivisionError] for [b = 0], [OverflowError] when the quotient is
    too large for a float. *)
Definition int_truediv (a b : Z) : result float :=
  if (b =? 0)%Z then Failed ZeroDivisionError
  else
    match SFdiv prec emax (Z2SF a) (Z2SF b) with
    | S754_infinity _ => Failed OverflowError
    | q => Done (SF2Prim q)
    end.

End Runtime.

Global Instance result_bind : MBind Runtime.result := fun A B k c => Runtime.bind c k.

(** *** [ml_service/app.py]: the model path, start-up and request bodies *)

Module Service.
Import Runtime.

(** Line 6: [os.environ.get("MODEL_PATH", "models/eco_model.pkl")]. *)
Definition MODEL_PATH (environ : gmap string string) : string :=
  Py.get environ "MODEL_PATH" "models/eco_model.pkl".

(** [load_model], lines 33-38.  [files] maps the paths that exist to
    their contents, [joblib_load] is [joblib.load] on a content; the
    value returned is what [model] is bound to. *)
Definition load_model {File Model : Type}
    (joblib_load : File -> result Model)
    (environ : gmap string string) (files : gmap string File) : result Model :=
  let path := MODEL_PATH environ in
  match files !! path with
  | None =>
      Failed (RuntimeError
                ("Model missing at " +:+ path
                 +:+ ". Run train_model.py to create it."))
  | Some file => joblib_load file
  end.

(** A request body: the fields it gives, before [Features] fills in its
    defaults (lines 22-31). *)
Record Body : Type := mkBody {
  given_distance_km : option float;
  given_elevation_gain_m : option float;
  given_avg_speed_kph : option float;
  given_turns : option Z;
  given_humps : option Z;
  given_weight_kg : option float;
  given_traffic_index : option float;
  given_route_type : option string;
  given_vehicle : option string
}.

(** [Features] built from a body: [distance_km] is required, every other
    field has the default of its declaration. *)
Definition Features_init (body : Body) : result App.Features :=
  match given_distance_km body with
  | None => Failed (ValidationError "distance_km")
  | Some distance_km =>
      Done (App.mkFeatures distance_km
              (default 0.0%float (given_elevation_gain_m body))
              (default 50.0%float (given_avg_speed_kph body))
              (default 0%Z (given_turns body))
              (default 0%Z (given_humps body))
              (default 1000.0%float (given_weight_kg body))
              (default 1.0%float (given_traffic_index body))
              (default "fast" (given_route_type body))
              (default "car" (given_vehicle body)))
  end.

End Service.

(** *** [ml_service/train_model.py]: the synthetic data and the training run *)

Module Trainer.
Import Runtime.

(** What one turn of the loop of [generate_data] draws (lines 34-42 and
    the two draws of its route branch, lines 54-62), in the order of the
    calls. *)
Record Sample : Type := mkSample {
  distance_km : float;
  elevation_gain_m : float;
  avg_speed_kph : float;
  turns : Z;
  humps : Z;
  traffic_index : float;
  vehicle : string;
  route_type : string;
  noise_fuel : float;
  noise_co2 : float
}.

(** Lines 43-71: the row appended for one sample. *)
Definition row (s : Sample) : result (list Py.num) :=
  v ← getitem TrainModel.VEHICLE_FACTORS (vehicle s);
  let weight_kg := App.weight v in
  let co2_factor := App.co2_factor v in
  w ← int_truediv weight_kg 1000;
  let base_fuel := (distance_km s / 12.0 + w * 0.5)%float in
  let base_co2 := (base_fuel * 2.31)%float in
  let '(base_fuel, base_co2) :=
    if String.eqb (route_type s) "eco" then
      ((base_fuel * (0.9 + noise_fuel s))%float,
       (base_co2 * (0.9 + noise_co2 s))%float)
    else if String.eqb (route_type s) "safe" then
      ((base_fuel * (1.2 + noise_fuel s))%float,
       (base_co2 * (1.2 + noise_co2 s))%float)
    else
      ((base_fuel * (1.05 + noise_fuel s))%float,
       (base_co2 * (1.05 + noise_co2 s))%float) in
  let fuel :=
    (base_fuel
     * (if String.eqb (App.energy_mode v) "fuel" then 1.0 else 0.5))%float in
  let co2 := (base_co2 * co2_factor)%float in
  code ← getitem TrainModel.ROUTE_TYPES (route_type s);
  Done [ Py.Float (distance_km s);
         Py.Float (elevation_gain_m s);
         Py.Float (avg_speed_kph s);
         Py.Int (turns s);
         Py.Int (humps s);
         Py.Int weight_kg;
         Py.Float (traffic_index s);
         Py.Int code;
         Py.Float fuel;
         Py.Float co2 ].

(** Lines 33 and 68: the rows of the samples, in order; the first sample
    that raises ends the loop. *)
Fixpoint collect (samples : list Sample) : result (list (list Py.num)) :=
  match samples with
  | [] => Done []
  | s :: rest =>
      r ← row s;
      rows ← collect rest;
      Done (r :: rows)
  end.

(** A data frame: its column labels and its rows. *)
Record DataFrame : Type := mkDataFrame {
  columns : list string;
  values : list (list Py.num)
}.

(** [generate_data(n)], lines 27-76; [draws i] is what turn [i] of the
    loop draws after [np.random.seed(42)].  The frame is built from rows
    that are as wide as the list of labels ([Behaviour.generate_data_shape]). *)
Definition generate_data (draws : nat -> Sample) (n : Z) : result DataFrame :=
  rows ← collect (map draws (seq 0 (Z.to_nat n)));
  Done (mkDataFrame
          [ "distance_km"; "elevation_gain_m"; "avg_speed_kph"; "turns"; "humps";
            "weight_kg"; "traffic_index"; "route_type"; "fuel_l"; "co2_kg" ]
          rows).

(** The entries of a row under the labels that [keep] accepts. *)
Fixpoint pick (keep : string -> bool) (labels : list string)
    (r : list Py.num) : list Py.num :=
  match labels, r with
  | l :: labels', x :: r' =>
      if keep l then x :: pick keep labels' r' else pick keep labels' r'
  | _, _ => []
  end.

(** [df.drop(labels, axis=1)]: [KeyError] for a label that is no column. *)
Definition drop_columns (labels : list string) (df : DataFrame) : result DataFrame :=
  match List.find (fun l => negb (Py.contains (columns df) l)) labels with
  | Some l => Failed (KeyError l)
  | None =>
      let keep := fun l => negb (Py.contains labels l) in
      Done (mkDataFrame (List.filter keep (columns df))
              (map (pick keep (columns df)) (values df)))
  end.

(** [df[labels]] for a list of labels: the columns in the order asked. *)
Definition select_columns (labels : list string) (df : DataFrame) : result DataFrame :=
  match List.find (fun l => negb (Py.contains (columns df) l)) labels with
  | Some l => Failed (KeyError l)
  | None =>
      Done (mkDataFrame labels
              (map (fun r =>
                      flat_map (fun l => pick (String.eqb l) (columns df) r) labels)
                 (values df)))
  end.

(** What [print] is given. *)
Inductive printed : Type :=
| Text (s : string)
| Number (x : float).

Section Libraries.

Context {File Model : Type}.

(** The calls of [train_model] into its libraries and into the system;
    each of them can raise.  [train_test_split X y] is line 89 with its
    [test_size] and [random_state], [fit] lines 92-93 (the forest and its
    fit), [score] the call of line 95; [makedirs] is [os.makedirs] with
    [exist_ok=True]; it and [joblib_dump] act on the files, a map from
    the paths that exist to what is there. *)
Variable print : list printed -> result unit.
Variable train_test_split :
  DataFrame -> DataFrame -> result (DataFrame * DataFrame * DataFrame * DataFrame).
Variable fit : DataFrame -> DataFrame -> result Model.
Variable score : Model -> DataFrame -> DataFrame -> result float.
Variable makedirs : string -> gmap string File -> result (gmap string File).
Variable joblib_dump :
  Model -> string -> gmap string File -> result (gmap string File).

(** [train_model], lines 82-99; the result is the files after the run. *)
Definition train_model (draws : nat -> Sample) (files : gmap string File)
    : result (gmap string File) :=
  _ ← print [Text "🔄 Generating synthetic dataset..."];
  df ← generate_data draws 10000;
  X ← drop_columns ["fuel_l"; "co2_kg"] df;
  y ← select_columns ["fuel_l"; "co2_kg"] df;
  '(X_train, X_test, y_train, y_test) ← train_test_split X y;
  _ ← print [Text "🔄 Training RandomForestRegressor..."];
  model ← fit X_train y_train;
  r2 ← score model X_test y_test;
  _ ← print [Text "✅ Model R^2 score:"; Number r2];
  files ← makedirs "models" files;
  files ← joblib_dump model "models/eco_model.pkl" files;
  _ ← print [Text "✅ Model saved to models/eco_model.pkl"];
  Done files.

End Libraries.

End Trainer.

(** ** Binary64 arithmetic

    Facts about the rounded operations that the handler applies: products
    by constants, and the halving of [co2_factor].  They are derived from
    the specification of the primitive operations ([mul_spec], [div_spec],
    [leb_spec], [ltb_spec]) by following [binary_round_aux]. *)

Module Binary64.
Local Open Scope Z_scope.

Abbreviation fexp := (SpecFloat.fexp prec emax).
Abbreviation canonical := (canonical_mantissa prec emax).
Abbreviation round_aux := (binary_round_aux prec emax).

(** *** Definitions *)

(** The value of [m * 2^e], counted in units of [2^-2200]: fine enough for
    every product and quotient of two binary64 numbers. *)
Definition val (m e : Z) : Z := m * 2 ^ (e + 2200).

(** The second half of [binary_round_aux]: the rounded mantissa is brought
    back into range and the exponent is checked against overflow. *)
Definition finish (s : bool) (m e : Z) : spec_float :=
  let '(mrs, e') := shr_fexp prec emax m e loc_Exact in
  match shr_m mrs with
  | Z0 => S754_zero s
  | Zpos p => if e' <=? emax - prec then S754_finite s p e' else S754_infinity s
  | Zneg _ => S754_nan
  end.

(** [rounded s m e r]: [r] is the binary64 number of sign [s] for the
    rounded mantissa [m] at exponent [e]. *)
Inductive rounded (s : bool) (m e : Z) : spec_float -> Prop :=
| rounded_zero :
    m = 0 -> rounded s m e (S754_zero s)
| rounded_finite p e' :
    canonical p e' = true -> e' <= 971 -> e <= e' ->
    Zpos p * 2 ^ (e' - e) = m ->
    rounded s m e (S754_finite s p e')
| rounded_infinity :
    (971 < e /\ 2 ^ 52 <= m) \/ (e = 971 /\ m = 2 ^ 53) ->
    rounded s m e (S754_infinity s).

(** The shapes of a number that is not below zero. *)
Variant nonneg_spec : spec_float -> Prop :=
| nonneg_zero s : nonneg_spec (S754_zero s)
| nonneg_infinity : nonneg_spec (S754_infinity false)
| nonneg_finite m e :
    canonical m e = true -> e <= 971 -> nonneg_spec (S754_finite false m e).

(** [0 < 2 ^ k] for an exponent that [lia] sees is not negative. *)
Ltac pow2_pos := apply Z.pow_pos_nonneg; lia.

(** *** The exponent function *)

Lemma fexp_eq e : fexp e = Z.max (e - 53) (-1074).
Proof. reflexivity. Qed.

Lemma fexp_mono a b : a <= b -> fexp a <= fexp b.
Proof. rewrite !fexp_eq. lia. Qed.

(** *** Binary digits *)

Lemma digits2_pos_bounds p :
  2 ^ (Zpos (digits2_pos p) - 1) <= Zpos p < 2 ^ Zpos (digits2_pos p).
Proof.
  induction p as [p IH|p IH|]; cbn [digits2_pos].
  - rewrite Pos2Z.inj_succ, Z.pow_succ_r by lia.
    replace (Z.succ (Zpos (digits2_pos p)) - 1) with (Z.succ (Zpos (digits2_pos p) - 1)) by lia.
    rewrite Z.pow_succ_r by lia. lia.
  - rewrite Pos2Z.inj_succ, Z.pow_succ_r by lia.
    replace (Z.succ (Zpos (digits2_pos p)) - 1) with (Z.succ (Zpos (digits2_pos p) - 1)) by lia.
    rewrite Z.pow_succ_r by lia. lia.
  - cbn. lia.
Qed.

Lemma Zdigits2_bounds n :
  0 < n -> 2 ^ (Zdigits2 n - 1) <= n < 2 ^ Zdigits2 n.
Proof. destruct n as [|p|p]; try lia. intros _. apply digits2_pos_bounds. Qed.

Lemma Zdigits2_nonneg n : 0 <= Zdigits2 n.
Proof. destruct n; cbn; lia. Qed.

Lemma Zdigits2_unique n d :
  2 ^ (d - 1) <= n < 2 ^ d -> 0 < n -> Zdigits2 n = d.
Proof.
  intros [Hlo Hhi] Hn.
  destruct (Zdigits2_bounds n Hn) as [Hlo' Hhi'].
  assert (Hd : 0 < d).
  { destruct (Z_lt_le_dec 0 d) as [|Hd]; [assumption|].
    destruct (Z.eq_dec d 0) as [->|]; [cbn in Hhi; lia|].
    rewrite (Z.pow_neg_r 2 d) in Hhi by lia. lia. }
  assert (H0 : 0 < Zdigits2 n) by (destruct n; cbn; lia).
  destruct (Z.lt_trichotomy (Zdigits2 n) d) as [Hlt|[Heq|Hgt]]; [|assumption|].
  - assert (2 ^ Zdigits2 n <= 2 ^ (d - 1)) by (apply Z.pow_le_mono_r; lia). lia.
  - assert (2 ^ d <= 2 ^ (Zdigits2 n - 1)) by (apply Z.pow_le_mono_r; lia). lia.
Qed.

(** *** Right shifts with sticky bits *)

Lemma shr_m_of_loc m l : shr_m (shr_record_of_loc m l) = m.
Proof. destruct l as [|[]]; reflexivity. Qed.

Lemma shr_1_m mrs : 0 <= shr_m mrs -> shr_m (shr_1 mrs) = shr_m mrs / 2.
Proof.
  destruct mrs as [m r s]; cbn [shr_m]; intros Hm.
  rewrite <- Z.div2_div.
  destruct m as [|[p|p|]|p]; try reflexivity; lia.
Qed.

Lemma iter_shr_m n mrs :
  0 <= shr_m mrs -> shr_m (SpecFloat.iter_pos shr_1 n mrs) = shr_m mrs / 2 ^ Zpos n.
Proof.
  revert mrs; induction n as [n IH|n IH|]; intros mrs Hm; cbn [SpecFloat.iter_pos].
  - assert (H1 : 0 <= shr_m (shr_1 mrs)).
    { rewrite shr_1_m by assumption. apply Z.div_pos; lia. }
    assert (H2 : 0 <= shr_m (SpecFloat.iter_pos shr_1 n (shr_1 mrs))).
    { rewrite IH by assumption. apply Z.div_pos; [assumption|pow2_pos]. }
    rewrite IH, IH, shr_1_m by assumption.
    rewrite !Z.div_div by (try apply Z.pow_pos_nonneg; lia).
    f_equal. rewrite (Pos2Z.inj_xI n).
    replace (2 * Zpos n + 1) with (1 + Zpos n + Zpos n) by lia.
    rewrite !Z.pow_add_r by lia. change (2 ^ 1) with 2. ring.
  - assert (H2 : 0 <= shr_m (SpecFloat.iter_pos shr_1 n mrs)).
    { rewrite IH by assumption. apply Z.div_pos; [assumption|pow2_pos]. }
    rewrite IH, IH by assumption.
    rewrite !Z.div_div by (try apply Z.pow_pos_nonneg; lia).
    f_equal. rewrite (Pos2Z.inj_xO n).
    replace (2 * Zpos n) with (Zpos n + Zpos n) by lia.
    rewrite Z.pow_add_r by lia. reflexivity.
  - rewrite shr_1_m by assumption. reflexivity.
Qed.

Lemma shr_1_exact z :
  shr_1 (Build_shr_record (2 * z) false false) = Build_shr_record z false false.
Proof. destruct z; reflexivity. Qed.

Lemma iter_shr_exact n z :
  SpecFloat.iter_pos shr_1 n (Build_shr_record (z * 2 ^ Zpos n) false false)
  = Build_shr_record z false false.
Proof.
  revert z; induction n as [n IH|n IH|]; intros z; cbn [SpecFloat.iter_pos].
  - rewrite (Pos2Z.inj_xI n).
    replace (z * 2 ^ (2 * Zpos n + 1)) with (2 * ((z * 2 ^ Zpos n) * 2 ^ Zpos n)).
    + rewrite shr_1_exact, IH, IH. reflexivity.
    + replace (2 * Zpos n + 1) with (1 + Zpos n + Zpos n) by lia.
      rewrite !Z.pow_add_r by lia. change (2 ^ 1) with 2. ring.
  - rewrite (Pos2Z.inj_xO n).
    replace (z * 2 ^ (2 * Zpos n)) with ((z * 2 ^ Zpos n) * 2 ^ Zpos n).
    + rewrite IH, IH. reflexivity.
    + replace (2 * Zpos n) with (Zpos n + Zpos n) by lia.
      rewrite !Z.pow_add_r by lia. ring.
  - change (2 ^ 1) with 2. rewrite Z.mul_comm. apply shr_1_exact.
Qed.

Lemma round_nearest_even_bounds m l :
  m <= round_nearest_even m l <= m + 1.
Proof. destruct l as [|[]]; cbn; try destruct (Z.even m); lia. Qed.

(** [shr_fexp] brings a mantissa to the exponent its size calls for. *)
Lemma shr_fexp_spec mx ex lx :
  0 <= mx ->
  let e' := Z.max ex (fexp (Zdigits2 mx + ex)) in
  exists mrs,
    shr_fexp prec emax mx ex lx = (mrs, e')
    /\ shr_m mrs = mx / 2 ^ (e' - ex)
    /\ (lx = loc_Exact -> mx mod 2 ^ (e' - ex) = 0 ->
        loc_of_shr_record mrs = loc_Exact).
Proof.
  intros Hm e'. unfold shr_fexp, shr.
  destruct (fexp (Zdigits2 mx + ex) - ex) as [|k|k] eqn:Hk.
  - exists (shr_record_of_loc mx lx).
    replace e' with ex by (unfold e'; lia).
    rewrite Z.sub_diag, shr_m_of_loc, Z.div_1_r.
    repeat split. intros -> _. reflexivity.
  - exists (SpecFloat.iter_pos shr_1 k (shr_record_of_loc mx lx)).
    replace (e' - ex) with (Zpos k) by (unfold e'; lia).
    replace e' with (ex + Zpos k) by (unfold e'; lia).
    rewrite iter_shr_m, shr_m_of_loc by (rewrite shr_m_of_loc; assumption).
    repeat split. intros -> Hmod.
    apply Z.div_exact in Hmod; [|apply Z.pow_nonzero; lia].
    rewrite Hmod at 1. cbn [shr_record_of_loc].
    rewrite (Z.mul_comm (2 ^ Zpos k)), iter_shr_exact. reflexivity.
  - exists (shr_record_of_loc mx lx).
    replace e' with ex by (unfold e'; lia).
    rewrite Z.sub_diag, shr_m_of_loc, Z.div_1_r.
    repeat split. intros -> _. reflexivity.
Qed.

(** *** Canonical mantissas and their values *)

Lemma val_pos m e : 0 < m -> -2200 <= e -> 0 < val m e.
Proof.
  intros Hm He. unfold val. apply Z.mul_pos_pos; [assumption|].
  pow2_pos.
Qed.

Lemma val_shift m e e0 :
  -2200 <= e0 <= e -> val m e = (m * 2 ^ (e - e0)) * 2 ^ (e0 + 2200).
Proof.
  intros He. unfold val.
  replace (e + 2200) with ((e - e0) + (e0 + 2200)) by lia.
  rewrite Z.pow_add_r by lia. ring.
Qed.

Lemma val_le_mono m n e : -2200 <= e -> m <= n -> val m e <= val n e.
Proof.
  intros He Hmn. unfold val. apply Z.mul_le_mono_nonneg_r; [|assumption].
  apply Z.pow_nonneg; lia.
Qed.

Lemma val_le_cancel m n e : -2200 <= e -> val m e <= val n e -> m <= n.
Proof.
  intros He H. unfold val in H.
  apply Z.mul_le_mono_pos_r in H; [assumption|pow2_pos].
Qed.

Lemma canonical_facts m e :
  canonical m e = true ->
  -1074 <= e /\ Zpos m < 2 ^ 53 /\ (-1074 < e -> 2 ^ 52 <= Zpos m)
  /\ fexp (Zpos (digits2_pos m) + e) = e.
Proof.
  unfold canonical_mantissa. intros H. apply Z.eqb_eq in H.
  pose proof (digits2_pos_bounds m) as [Hlo Hhi].
  assert (Hd : Zpos (digits2_pos m) <= 53) by (rewrite fexp_eq in H; lia).
  repeat split.
  - rewrite fexp_eq in H; lia.
  - eapply Z.lt_le_trans; [exact Hhi|]. apply Z.pow_le_mono_r; lia.
  - intros He.
    assert (Hd' : Zpos (digits2_pos m) = 53) by (rewrite fexp_eq in H; lia).
    rewrite Hd' in Hlo. exact Hlo.
  - exact H.
Qed.

(** A canonical mantissa in a higher binade is worth more. *)
Lemma val_lt_of_exponent m1 e1 m2 e2 :
  canonical m1 e1 = true -> canonical m2 e2 = true ->
  e1 < e2 -> val (Zpos m1) e1 < val (Zpos m2) e2.
Proof.
  intros H1 H2 Hlt.
  apply canonical_facts in H1 as (He1 & Hm1 & _ & _).
  apply canonical_facts in H2 as (He2 & _ & Hm2 & _).
  specialize (Hm2 ltac:(lia)).
  rewrite (val_shift (Zpos m2) e2 e1) by lia.
  unfold val. apply Z.mul_lt_mono_pos_r; [pow2_pos|].
  assert (2 ^ 1 <= 2 ^ (e2 - e1)) by (apply Z.pow_le_mono_r; lia).
  change (2 ^ 1) with 2 in *.
  change (2 ^ 53) with (2 * 2 ^ 52) in Hm1.
  nia.
Qed.

Lemma compare_canonical m1 e1 m2 e2 :
  canonical m1 e1 = true -> canonical m2 e2 = true ->
  SFcompare (S754_finite false m1 e1) (S754_finite false m2 e2)
  = Some (val (Zpos m1) e1 ?= val (Zpos m2) e2).
Proof.
  intros H1 H2. cbn [SFcompare]. f_equal.
  destruct (Z.compare_spec e1 e2) as [->|Hlt|Hgt].
  - apply canonical_facts in H2 as (He2 & _).
    rewrite Pos.compare_cont_spec.
    assert (Hp : 0 < 2 ^ (e2 + 2200)) by pow2_pos.
    unfold val.
    destruct (Pos.compare_spec m1 m2) as [->|Hlt|Hgt]; cbn [Pos.switch_Eq]; symmetry.
    + apply Z.compare_refl.
    + apply Z.compare_lt_iff, Z.mul_lt_mono_pos_r; [assumption|lia].
    + apply Z.compare_gt_iff, Z.mul_lt_mono_pos_r; [assumption|lia].
  - symmetry. apply Z.compare_lt_iff. apply val_lt_of_exponent; assumption.
  - symmetry. apply Z.compare_gt_iff. apply val_lt_of_exponent; assumption.
Qed.

(** *** What [binary_round_aux] returns *)

Lemma round_aux_finish s mx ex lx mrs e1 :
  shr_fexp prec emax mx ex lx = (mrs, e1) ->
  round_aux s mx ex lx
  = finish s (round_nearest_even (shr_m mrs) (loc_of_shr_record mrs)) e1.
Proof. intros H. unfold binary_round_aux, finish. rewrite H. reflexivity. Qed.

Lemma Zdigits2_pos_lt n : 0 < n -> 0 < Zdigits2 n.
Proof. destruct n; cbn; lia. Qed.

Lemma finish_digits m e q :
  0 <= q -> q <= m <= q + 1 -> 0 < m ->
  (0 < q -> fexp (Zdigits2 q + e) = e) -> (q = 0 -> e = -1074) ->
  e <= fexp (Zdigits2 m + e) <= e + 1
  /\ (fexp (Zdigits2 m + e) = e + 1 ->
      m = 2 ^ (Zdigits2 m - 1) /\ 2 <= Zdigits2 m).
Proof.
  intros Hq Hm Hm0 Hcan Hz.
  destruct (Z.eq_dec q 0) as [->|Hq0].
  - assert (m = 1) by lia. subst m. rewrite (Hz eq_refl).
    change (fexp (Zdigits2 1 + -1074)) with (-1074). lia.
  - specialize (Hcan ltac:(lia)).
    destruct (Zdigits2_bounds q ltac:(lia)) as [Hlo Hhi].
    pose proof (Zdigits2_pos_lt q ltac:(lia)) as Hdq.
    set (dq := Zdigits2 q) in *.
    destruct (Z_lt_le_dec m (2 ^ dq)) as [Hlt|Hge].
    + assert (Hd : Zdigits2 m = dq) by (apply Zdigits2_unique; lia).
      rewrite Hd, Hcan. lia.
    + assert (Hmq : m = 2 ^ dq) by lia.
      assert (Hd : Zdigits2 m = dq + 1).
      { apply Zdigits2_unique; [|lia].
        replace (dq + 1 - 1) with dq by lia.
        rewrite Z.pow_add_r by lia. change (2 ^ 1) with 2. lia. }
      rewrite Hd. rewrite fexp_eq in *. split; [lia|]. intros _.
      replace (dq + 1 - 1) with dq by lia. split; [assumption|lia].
Qed.

Lemma finish_rounded s m e q :
  -1074 <= e -> 0 <= q -> q <= m <= q + 1 ->
  (0 < q -> fexp (Zdigits2 q + e) = e) -> (q = 0 -> e = -1074) ->
  rounded s m e (finish s m e).
Proof.
  intros He Hq Hm Hcan Hz.
  destruct (shr_fexp_spec m e loc_Exact ltac:(lia)) as (mrs & Heq & Hmrs & _).
  unfold finish. rewrite Heq, Hmrs. clear Heq Hmrs mrs.
  destruct (Z.eq_dec m 0) as [->|Hm0].
  - rewrite Z.div_0_l by (apply Z.pow_nonzero; lia). constructor; reflexivity.
  - destruct (finish_digits m e q Hq Hm ltac:(lia) Hcan Hz) as [Hrange Hcarry].
    pose proof (Zdigits2_bounds m ltac:(lia)) as [Hlo Hhi].
    change (emax - prec) with 971.
    destruct (Z.eq_dec (fexp (Zdigits2 m + e)) e) as [Hsame|Hdiff].
    + rewrite Hsame, Z.max_id, Z.sub_diag, Z.div_1_r.
      destruct m as [|p|p]; try lia.
      destruct (Z.leb_spec e 971) as [Hle|Hgt].
      * apply rounded_finite; try lia.
        -- unfold canonical_mantissa. apply Z.eqb_eq. exact Hsame.
        -- rewrite Z.sub_diag. apply Z.mul_1_r.
      * apply rounded_infinity. left. split; [assumption|].
        assert (Hd : Zdigits2 (Zpos p) = 53) by (rewrite fexp_eq in Hsame; lia).
        rewrite Hd in Hlo. exact Hlo.
    + assert (Hnext : fexp (Zdigits2 m + e) = e + 1) by lia.
      destruct (Hcarry Hnext) as [Hpow Hd2].
      rewrite Hnext.
      replace (Z.max e (e + 1) - e) with 1 by lia.
      assert (Hhalf : m = 2 * 2 ^ (Zdigits2 m - 2)).
      { rewrite Hpow at 1.
        replace (Zdigits2 m - 1) with (1 + (Zdigits2 m - 2)) by lia.
        rewrite Z.pow_add_r by lia. reflexivity. }
      assert (Hdiv : m / 2 ^ 1 = 2 ^ (Zdigits2 m - 2)).
      { change (2 ^ 1) with 2. rewrite Hhalf at 1.
        rewrite Z.mul_comm, Z.div_mul by lia. reflexivity. }
      rewrite Hdiv.
      assert (Hpos : 0 < 2 ^ (Zdigits2 m - 2)) by pow2_pos.
      destruct (2 ^ (Zdigits2 m - 2)) as [|p|p] eqn:Hp; try lia.
      replace (Z.max e (e + 1)) with (e + 1) by lia.
      assert (Hdp : Zdigits2 (Zpos p) = Zdigits2 m - 1).
      { apply Zdigits2_unique; [|lia]. rewrite <- Hp.
        replace (Zdigits2 m - 1 - 1) with (Zdigits2 m - 2) by lia.
        split; [lia|]. apply Z.pow_lt_mono_r; lia. }
      destruct (Z.leb_spec (e + 1) 971) as [Hle|Hgt].
      * apply rounded_finite; try lia.
        -- unfold canonical_mantissa. apply Z.eqb_eq.
           change (Zpos (digits2_pos p)) with (Zdigits2 (Zpos p)).
           rewrite Hdp. replace (Zdigits2 m - 1 + (e + 1)) with (Zdigits2 m + e) by lia.
           exact Hnext.
        -- replace (e + 1 - e) with 1 by lia. change (2 ^ 1) with 2. lia.
      * apply rounded_infinity.
        assert (Hd : Zdigits2 m = 54) by (rewrite fexp_eq in Hnext; lia).
        assert (Hm53 : m = 2 ^ 53) by (rewrite Hpow, Hd; reflexivity).
        destruct (Z.eq_dec e 971) as [He971|Hne]; [right|left]; split; lia.
Qed.

Lemma shifted_digits mx k :
  0 <= k -> 0 < mx / 2 ^ k -> Zdigits2 (mx / 2 ^ k) = Zdigits2 mx - k.
Proof.
  intros Hk Hq.
  assert (Hp : 0 < 2 ^ k) by pow2_pos.
  assert (Hmx : 0 < mx).
  { destruct (Z_lt_le_dec 0 mx) as [|Hle]; [assumption|].
    assert (mx / 2 ^ k <= 0) by (apply Z.div_le_upper_bound; lia). lia. }
  destruct (Zdigits2_bounds mx Hmx) as [Hlo Hhi].
  pose proof (Zdigits2_pos_lt mx Hmx) as Hd.
  assert (Hkd : k < Zdigits2 mx).
  { destruct (Z_lt_le_dec k (Zdigits2 mx)) as [|Hle]; [assumption|].
    assert (2 ^ Zdigits2 mx <= 2 ^ k) by (apply Z.pow_le_mono_r; lia).
    rewrite Z.div_small in Hq by lia. lia. }
  apply Zdigits2_unique; [|assumption]. split.
  - apply Z.div_le_lower_bound; [assumption|].
    rewrite <- Z.pow_add_r by lia.
    replace (k + (Zdigits2 mx - k - 1)) with (Zdigits2 mx - 1) by lia. assumption.
  - apply Z.div_lt_upper_bound; [assumption|].
    rewrite <- Z.pow_add_r by lia.
    replace (k + (Zdigits2 mx - k)) with (Zdigits2 mx) by lia. assumption.
Qed.

Lemma vanished_exponent mx ex :
  0 <= mx -> ex <= fexp (Zdigits2 mx + ex) ->
  mx / 2 ^ (fexp (Zdigits2 mx + ex) - ex) = 0 ->
  fexp (Zdigits2 mx + ex) = -1074.
Proof.
  intros Hmx Hex Hq.
  destruct (Z.eq_dec mx 0) as [->|Hne].
  - cbn [Zdigits2] in *. rewrite fexp_eq in *. lia.
  - destruct (Zdigits2_bounds mx ltac:(lia)) as [Hlo Hhi].
    set (k := fexp (Zdigits2 mx + ex) - ex) in *.
    apply Z.div_small_iff in Hq; [|apply Z.pow_nonzero; lia].
    destruct Hq as [Hq|Hq].
    2:{ assert (0 < 2 ^ k) by pow2_pos. lia. }
    assert (Hdk : Zdigits2 mx - 1 < k).
    { destruct (Z_lt_le_dec (Zdigits2 mx - 1) k) as [|Hle]; [assumption|].
      assert (2 ^ k <= 2 ^ (Zdigits2 mx - 1)) by (apply Z.pow_le_mono_r; lia). lia. }
    unfold k in Hdk. rewrite fexp_eq in *. lia.
Qed.

(** The rounded mantissa is the truncated one or its successor, and the
    result carries it at the exponent of the first shift. *)
Lemma round_aux_rounded s mx ex lx :
  0 <= mx -> ex <= fexp (Zdigits2 mx + ex) ->
  exists m2,
    mx / 2 ^ (fexp (Zdigits2 mx + ex) - ex) <= m2
      <= mx / 2 ^ (fexp (Zdigits2 mx + ex) - ex) + 1
    /\ (lx = loc_Exact -> mx mod 2 ^ (fexp (Zdigits2 mx + ex) - ex) = 0 ->
        m2 = mx / 2 ^ (fexp (Zdigits2 mx + ex) - ex))
    /\ rounded s m2 (fexp (Zdigits2 mx + ex)) (round_aux s mx ex lx).
Proof.
  intros Hmx Hex.
  destruct (shr_fexp_spec mx ex lx Hmx) as (mrs & Heq & Hm & Hexact).
  rewrite Z.max_r in Heq, Hm, Hexact by assumption.
  set (e1 := fexp (Zdigits2 mx + ex)) in *.
  exists (round_nearest_even (shr_m mrs) (loc_of_shr_record mrs)).
  pose proof (round_nearest_even_bounds (shr_m mrs) (loc_of_shr_record mrs)) as Hb.
  rewrite (round_aux_finish _ _ _ _ _ _ Heq).
  rewrite Hm in *.
  assert (Hk : 0 < 2 ^ (e1 - ex)) by pow2_pos.
  split; [assumption|]. split.
  - intros Hl Hmod. rewrite (Hexact Hl Hmod). reflexivity.
  - apply finish_rounded with (q := mx / 2 ^ (e1 - ex)).
    + unfold e1. rewrite fexp_eq. lia.
    + apply Z.div_pos; lia.
    + assumption.
    + intros Hq. rewrite shifted_digits by lia.
      replace (Zdigits2 mx - (e1 - ex) + e1) with (Zdigits2 mx + ex) by lia.
      reflexivity.
    + intros Hq. apply vanished_exponent; assumption.
Qed.

(** *** Bounds on a rounded result *)

Lemma val_rounded_finite m e p e' :
  -2200 <= e -> e <= e' -> Zpos p * 2 ^ (e' - e) = m ->
  val (Zpos p) e' = val m e.
Proof. intros He Hee <-. apply val_shift. lia. Qed.

Lemma val_binade_lt m e e' :
  m < 2 ^ 53 -> -2200 <= e -> e < e' -> val m e < val (2 ^ 52) e'.
Proof.
  intros Hm He Hlt.
  rewrite (val_shift (2 ^ 52) e' e) by lia.
  unfold val. apply Z.mul_lt_mono_pos_r; [pow2_pos|].
  assert (2 ^ 1 <= 2 ^ (e' - e)) by (apply Z.pow_le_mono_r; lia).
  change (2 ^ 1) with 2 in *. change (2 ^ 53) with (2 * 2 ^ 52) in Hm.
  assert (0 < 2 ^ 52) by pow2_pos.
  nia.
Qed.

Lemma SFleb_of_val m1 e1 m2 e2 :
  canonical m1 e1 = true -> canonical m2 e2 = true ->
  SFleb (S754_finite false m1 e1) (S754_finite false m2 e2)
  = (val (Zpos m1) e1 <=? val (Zpos m2) e2).
Proof.
  intros H1 H2. unfold SFleb. rewrite compare_canonical by assumption.
  unfold Z.leb. destruct (_ ?= _); reflexivity.
Qed.

Lemma SFltb_of_val m1 e1 m2 e2 :
  canonical m1 e1 = true -> canonical m2 e2 = true ->
  SFltb (S754_finite false m1 e1) (S754_finite false m2 e2)
  = (val (Zpos m1) e1 <? val (Zpos m2) e2).
Proof.
  intros H1 H2. unfold SFltb. rewrite compare_canonical by assumption.
  unfold Z.ltb. destruct (_ ?= _); reflexivity.
Qed.

Section RoundedBounds.

(** A mantissa [mx] at exponent [ex] about to be rounded, and a binary64
    number [mt * 2^et] to compare the result with. *)
Variables (mx ex : Z) (mt : positive) (et : Z).
Hypothesis mantissa_nonneg : 0 <= mx.
Hypothesis exponent_in_scale : -2200 <= ex.
Hypothesis shift_nonneg : ex <= fexp (Zdigits2 mx + ex).
Hypothesis target_canonical : canonical mt et = true.

(** The truncated mantissa, at the exponent of the first shift, is worth
    at least every binary64 number that the exact value reaches. *)
Lemma truncated_lower :
  val (Zpos mt) et <= val mx ex ->
  val (Zpos mt) et
  <= val (mx / 2 ^ (fexp (Zdigits2 mx + ex) - ex)) (fexp (Zdigits2 mx + ex)).
Proof.
  intros Hle.
  pose proof (canonical_facts _ _ target_canonical) as (Het & Hmt & _ & _).
  pose proof shift_nonneg as Hfexp.
  set (e1 := fexp (Zdigits2 mx + ex)) in *.
  assert (Hk : 0 < 2 ^ (e1 - ex)) by pow2_pos.
  assert (Hmx0 : 0 < mx).
  { pose proof (val_pos (Zpos mt) et ltac:(lia) ltac:(lia)).
    pose proof mantissa_nonneg.
    destruct (Z.eq_dec mx 0) as [Hz|]; [rewrite Hz in Hle; unfold val in Hle at 2; lia|lia]. }
  destruct (Z_le_gt_dec e1 et) as [Hge|Hlt].
  - rewrite (val_shift (Zpos mt) et e1) by lia.
    apply val_le_mono; [lia|].
    apply Z.div_le_lower_bound; [assumption|].
    rewrite (val_shift (Zpos mt) et ex), (val_shift mx ex ex) in Hle by lia.
    apply val_le_cancel in Hle; [|lia].
    rewrite Z.sub_diag, Z.pow_0_r, Z.mul_1_r in Hle.
    replace (et - ex) with ((et - e1) + (e1 - ex)) in Hle by lia.
    rewrite Z.pow_add_r in Hle by lia. lia.
  - assert (He1 : e1 = Zdigits2 mx + ex - 53) by (unfold e1 in *; rewrite fexp_eq in *; lia).
    destruct (Zdigits2_bounds mx Hmx0) as [Hlo _].
    apply Z.lt_le_incl. eapply Z.lt_le_trans.
    + apply (val_binade_lt _ et e1); lia.
    + apply val_le_mono; [lia|].
      apply Z.div_le_lower_bound; [assumption|].
      rewrite <- Z.pow_add_r by lia.
      replace (e1 - ex + 52) with (Zdigits2 mx - 1) by lia. assumption.
Qed.

Lemma round_aux_lower lx :
  val (Zpos mt) et <= val mx ex ->
  SFleb (S754_finite false mt et) (round_aux false mx ex lx) = true.
Proof.
  intros Hle.
  pose proof (truncated_lower Hle) as Htr.
  destruct (round_aux_rounded false mx ex lx mantissa_nonneg shift_nonneg)
    as (m2 & [Hlo _] & _ & Hr).
  pose proof (canonical_facts _ _ target_canonical) as (Het & _).
  set (e1 := fexp (Zdigits2 mx + ex)) in *.
  assert (He1 : -1074 <= e1) by (unfold e1; rewrite fexp_eq; lia).
  assert (Hv : val (Zpos mt) et <= val m2 e1).
  { etransitivity; [exact Htr|]. apply val_le_mono; lia. }
  pose proof (val_pos (Zpos mt) et ltac:(lia) ltac:(lia)) as Hpos.
  inversion Hr as [Hz|p e' Hc He' Hee Hm|Hinf].
  - subst m2. unfold val in Hv at 2. lia.
  - rewrite SFleb_of_val by assumption.
    rewrite (val_rounded_finite m2 e1 p e') by lia.
    apply Z.leb_le. assumption.
  - reflexivity.
Qed.

(** Dually, the result stays below every binary64 number that lies above
    the exact value by a unit of the given mantissa. *)
Lemma round_aux_upper lx :
  et <= 971 ->
  val (mx + 1) ex <= val (Zpos mt) et ->
  SFltb (S754_finite false mt et) (round_aux false mx ex lx) = false.
Proof.
  intros Hbound Hle.
  destruct (round_aux_rounded false mx ex lx mantissa_nonneg shift_nonneg)
    as (m2 & [_ Hhi] & _ & Hr).
  pose proof (canonical_facts _ _ target_canonical) as (Het & Hmt & _ & _).
  pose proof shift_nonneg as Hfexp. pose proof mantissa_nonneg as Hmx.
  set (e1 := fexp (Zdigits2 mx + ex)) in *.
  assert (He1 : -1074 <= e1) by (unfold e1; rewrite fexp_eq; lia).
  assert (Hk : 0 < 2 ^ (e1 - ex)) by pow2_pos.
  assert (Hge : e1 <= et).
  { destruct (Z_le_gt_dec e1 et) as [|Hlt]; [assumption|exfalso].
    assert (He1' : e1 = Zdigits2 mx + ex - 53) by (unfold e1 in *; rewrite fexp_eq in *; lia).
    assert (Hmx0 : 0 < mx).
    { destruct (Z.eq_dec mx 0) as [Hz|]; [rewrite Hz in He1'; cbn [Zdigits2] in He1'; lia|lia]. }
    destruct (Zdigits2_bounds mx Hmx0) as [Hlo _].
    pose proof (val_binade_lt (Zpos mt) et e1 Hmt ltac:(lia) ltac:(lia)) as Hlt'.
    assert (val (2 ^ 52) e1 <= val (mx + 1) ex); [|lia].
    rewrite (val_shift (2 ^ 52) e1 ex) by lia.
    apply val_le_mono; [lia|].
    rewrite <- Z.pow_add_r by lia.
    replace (52 + (e1 - ex)) with (Zdigits2 mx - 1) by lia. lia. }
  assert (Hv : val m2 e1 <= val (Zpos mt) et).
  { rewrite (val_shift (Zpos mt) et e1) by lia.
    apply val_le_mono; [lia|].
    assert (mx / 2 ^ (e1 - ex) < Zpos mt * 2 ^ (et - e1)); [|lia].
    apply Z.div_lt_upper_bound; [assumption|].
    rewrite (val_shift (Zpos mt) et ex), (val_shift (mx + 1) ex ex) in Hle by lia.
    apply val_le_cancel in Hle; [|lia].
    rewrite Z.sub_diag, Z.pow_0_r, Z.mul_1_r in Hle.
    replace (et - ex) with ((et - e1) + (e1 - ex)) in Hle by lia.
    rewrite Z.pow_add_r in Hle by lia. lia. }
  inversion Hr as [Hz|p e' Hc He' Hee Hm|Hinf].
  - reflexivity.
  - rewrite SFltb_of_val by assumption.
    rewrite (val_rounded_finite m2 e1 p e') by lia.
    apply Z.ltb_ge. assumption.
  - exfalso.
    assert (Hlt : val (Zpos mt) et < val m2 e1); [|lia].
    destruct Hinf as [[He Hm]|[He Hm]].
    + eapply Z.lt_le_trans; [apply (val_binade_lt _ et e1); lia|].
      apply val_le_mono; lia.
    + subst m2. rewrite (val_shift (2 ^ 53) e1 et) by lia.
      apply Z.mul_lt_mono_pos_r; [pow2_pos|].
      assert (0 < 2 ^ (e1 - et)) by pow2_pos.
      assert (0 < 2 ^ 53) by pow2_pos. nia.
Qed.

End RoundedBounds.

Lemma round_aux_negative mt et mx ex lx :
  SFltb (S754_finite false mt et) (round_aux true mx ex lx) = false.
Proof.
  unfold binary_round_aux.
  destruct (shr_fexp prec emax mx ex lx) as [mrs e'].
  destruct (shr_fexp prec emax _ e' loc_Exact) as [mrs' e''].
  destruct (shr_m mrs'); try reflexivity.
  destruct (_ <=? _); reflexivity.
Qed.

(** *** Products *)

Lemma val_mul m n e f :
  -2200 <= e -> -2200 <= f -> -2200 <= e + f ->
  val (m * n) (e + f) * val 1 0 = val m e * val n f.
Proof.
  intros He Hf Hef. unfold val.
  replace (e + f + 2200) with ((e + 2200) + (f + 2200) - 2200) by lia.
  rewrite Z.mul_1_l.
  transitivity (m * n * 2 ^ ((e + 2200) + (f + 2200) - 2200 + (0 + 2200))).
  - rewrite (Z.pow_add_r 2 (e + 2200 + (f + 2200) - 2200)) by lia. ring.
  - replace (e + 2200 + (f + 2200) - 2200 + (0 + 2200)) with ((e + 2200) + (f + 2200)) by lia.
    rewrite Z.pow_add_r by lia. ring.
Qed.

Lemma val_unit_pos : 0 < val 1 0.
Proof. apply val_pos; lia. Qed.

Lemma Zdigits2_mul_lower a b :
  0 < a -> 0 < b -> Zdigits2 a + Zdigits2 b - 1 <= Zdigits2 (a * b).
Proof.
  intros Ha Hb.
  destruct (Zdigits2_bounds a Ha) as [Hla _].
  destruct (Zdigits2_bounds b Hb) as [Hlb _].
  destruct (Zdigits2_bounds (a * b) ltac:(lia)) as [_ Hh].
  pose proof (Zdigits2_pos_lt a Ha). pose proof (Zdigits2_pos_lt b Hb).
  pose proof (Zdigits2_nonneg (a * b)).
  destruct (Z_le_gt_dec (Zdigits2 a + Zdigits2 b - 1) (Zdigits2 (a * b))) as [|Hgt];
    [assumption|exfalso].
  assert (Hp : 2 ^ Zdigits2 (a * b) <= 2 ^ ((Zdigits2 a - 1) + (Zdigits2 b - 1)))
    by (apply Z.pow_le_mono_r; lia).
  rewrite Z.pow_add_r in Hp by lia.
  assert (0 < 2 ^ (Zdigits2 a - 1)) by pow2_pos.
  assert (0 < 2 ^ (Zdigits2 b - 1)) by pow2_pos.
  nia.
Qed.

Lemma product_exponent ma ea mc ec :
  canonical ma ea = true -> canonical mc ec = true ->
  ea + ec <= fexp (Zdigits2 (Zpos ma * Zpos mc) + (ea + ec)).
Proof.
  intros Ha Hc.
  pose proof (Zdigits2_mul_lower (Zpos ma) (Zpos mc) ltac:(lia) ltac:(lia)) as Hd.
  apply canonical_facts in Ha as (Hea & _ & _ & Hfa).
  apply canonical_facts in Hc as (Hec & _ & _ & Hfc).
  change (Zdigits2 (Zpos ma)) with (Zpos (digits2_pos ma)) in Hd.
  change (Zdigits2 (Zpos mc)) with (Zpos (digits2_pos mc)) in Hd.
  rewrite fexp_eq in *. lia.
Qed.

Lemma finite_valid x s m e :
  Prim2SF x = S754_finite s m e -> canonical m e = true /\ e <= 971.
Proof.
  intros H. pose proof (Prim2SF_valid x) as Hv. rewrite H in Hv.
  cbn [SpecFloat.valid_binary] in Hv. unfold bounded in Hv.
  apply andb_true_iff in Hv as [Hc He].
  split; [assumption|]. apply Z.leb_le in He. exact He.
Qed.

(** A product of two positive numbers is at least every binary64 number
    that the exact product reaches. *)
Lemma mul_lower x c mx ex mc ec mt et :
  Prim2SF x = S754_finite false mx ex ->
  Prim2SF c = S754_finite false mc ec ->
  canonical mt et = true ->
  val (Zpos mt) et * val 1 0 <= val (Zpos mx) ex * val (Zpos mc) ec ->
  SFleb (S754_finite false mt et) (Prim2SF (x * c)) = true.
Proof.
  intros Hx Hc Ht Hle.
  destruct (finite_valid _ _ _ _ Hx) as [Hcx _].
  destruct (finite_valid _ _ _ _ Hc) as [Hcc _].
  pose proof (product_exponent _ _ _ _ Hcx Hcc) as Hfexp.
  pose proof (canonical_facts _ _ Hcx) as (Hex & _).
  pose proof (canonical_facts _ _ Hcc) as (Hec & _).
  rewrite mul_spec, Hx, Hc. cbn [SF64mul SFmul xorb].
  change (Zpos (mx * mc)) with (Zpos mx * Zpos mc).
  apply round_aux_lower; try assumption; try lia.
  rewrite <- (val_mul (Zpos mx) (Zpos mc) ex ec) in Hle by lia.
  apply Z.mul_le_mono_pos_r in Hle; [assumption|apply val_unit_pos].
Qed.

(** *** Reading comparisons of numbers *)

Lemma finite_ge k c mk ek :
  Prim2SF k = S754_finite false mk ek ->
  (k <=? c)%float = true -> (c <? infinity)%float = true ->
  exists mc ec,
    Prim2SF c = S754_finite false mc ec
    /\ val (Zpos mk) ek <= val (Zpos mc) ec.
Proof.
  intros Hk Hle Hlt. rewrite leb_spec, Hk in Hle. rewrite ltb_spec in Hlt.
  destruct (finite_valid _ _ _ _ Hk) as [Hck _].
  destruct (Prim2SF c) as [s|s| |s m e] eqn:Hc.
  - destruct s; discriminate.
  - destruct s; discriminate.
  - discriminate.
  - destruct (finite_valid _ _ _ _ Hc) as [Hcc _].
    destruct s; [discriminate|].
    rewrite SFleb_of_val in Hle by assumption.
    exists m, e. split; [reflexivity|]. apply Z.leb_le. assumption.
Qed.

Lemma nonneg_cases x : (0 <=? x)%float = true -> nonneg_spec (Prim2SF x).
Proof.
  intros H. rewrite leb_spec in H.
  change (Prim2SF 0) with (S754_zero false) in H.
  destruct (Prim2SF x) as [s|s| |s m e] eqn:Hx.
  - constructor.
  - destruct s; [discriminate|constructor].
  - discriminate.
  - destruct s; [discriminate|].
    destruct (finite_valid _ _ _ _ Hx). constructor; assumption.
Qed.

(** Multiplying a non-negative number by a finite factor of at least one
    does not make it smaller. *)
Lemma mul_ge x c :
  (0 <=? x)%float = true -> (1 <=? c)%float = true ->
  (c <? infinity)%float = true -> (x <=? x * c)%float = true.
Proof.
  intros Hx Hc Hfin.
  destruct (finite_ge 1 c 4503599627370496 (-52) eq_refl Hc Hfin) as (mc & ec & Hcs & Hcv).
  rewrite leb_spec.
  pose proof (nonneg_cases x Hx) as Hn.
  destruct (Prim2SF x) as [s|s| |s m e] eqn:Hxs; inversion Hn; subst.
  - rewrite mul_spec, Hxs, Hcs. reflexivity.
  - rewrite mul_spec, Hxs, Hcs. reflexivity.
  - apply (mul_lower x c m e mc ec); try assumption.
    apply Z.mul_le_mono_nonneg_l; [|exact Hcv].
    apply Z.lt_le_incl, val_pos; [lia|].
    match goal with H : canonical m e = true |- _ =>
      apply canonical_facts in H as (? & _); lia end.
Qed.

(** Twice a binary64 number, as a canonical mantissa: the exponent may
    leave the range, the comparison with it still makes sense. *)
Lemma double_canonical m e :
  canonical m e = true ->
  exists mt et,
    canonical mt et = true /\ val (Zpos mt) et = 2 * val (Zpos m) e.
Proof.
  intros Hc. pose proof (canonical_facts _ _ Hc) as (He & _ & _ & Hf).
  destruct (Z.eq_dec (Zpos (digits2_pos m)) 53) as [Hd|Hd].
  - exists m, (e + 1). split.
    + unfold canonical_mantissa. apply Z.eqb_eq. rewrite fexp_eq in *. lia.
    + rewrite (val_shift (Zpos m) (e + 1) e) by lia.
      replace (e + 1 - e) with 1 by lia. change (2 ^ 1) with 2.
      unfold val. ring.
  - exists (m~0)%positive, e. split.
    + unfold canonical_mantissa. apply Z.eqb_eq. cbn [digits2_pos].
      rewrite Pos2Z.inj_succ. rewrite fexp_eq in *. lia.
    + unfold val. rewrite (Pos2Z.inj_xO m). ring.
Qed.

(** A factor of at least two followed by a factor of at least one half:
    the result of the two roundings is still not below the start. *)
Lemma mul_mul_ge x c r :
  (0 <=? x)%float = true ->
  (2 <=? c)%float = true -> (c <? infinity)%float = true ->
  (0.5 <=? r)%float = true -> (r <? infinity)%float = true ->
  (x <=? x * c * r)%float = true.
Proof.
  intros Hx Hc Hcfin Hr Hrfin.
  destruct (finite_ge 2 c 4503599627370496 (-51) eq_refl Hc Hcfin) as (mc & ec & Hcs & Hcv).
  destruct (finite_ge 0.5 r 4503599627370496 (-53) eq_refl Hr Hrfin) as (mr & er & Hrs & Hrv).
  rewrite leb_spec.
  pose proof (nonneg_cases x Hx) as Hn.
  destruct (Prim2SF x) as [s|s| |s m e] eqn:Hxs; inversion Hn as [| |? ? Hcan Hb]; subst.
  - rewrite mul_spec, mul_spec, Hxs, Hcs, Hrs. reflexivity.
  - rewrite mul_spec, mul_spec, Hxs, Hcs, Hrs. reflexivity.
  - pose proof (canonical_facts _ _ Hcan) as (He & _).
    pose proof (val_pos (Zpos m) e ltac:(lia) ltac:(lia)) as Hvx.
    destruct (double_canonical m e Hcan) as (mt & et & Ht & Htv).
    assert (Hy : SFleb (S754_finite false mt et) (Prim2SF (x * c)) = true).
    { apply (mul_lower x c m e mc ec); try assumption.
      rewrite Htv.
      change (val (Zpos 4503599627370496) (-51)) with (2 * val 1 0) in Hcv.
      replace (2 * val (Zpos m) e * val 1 0) with (val (Zpos m) e * (2 * val 1 0)) by ring.
      apply Z.mul_le_mono_nonneg_l; lia. }
    destruct (Prim2SF (x * c)) as [sy|sy| |sy my ey] eqn:Hys.
    + destruct sy; discriminate.
    + destruct sy; [discriminate|].
      rewrite mul_spec, Hys, Hrs. reflexivity.
    + discriminate.
    + destruct sy; [discriminate|].
      destruct (finite_valid _ _ _ _ Hys) as [Hcy _].
      rewrite SFleb_of_val in Hy by assumption. apply Z.leb_le in Hy.
      apply (mul_lower (x * c) r my ey mr er); try assumption.
      assert (Hhalf : val 1 0 = 2 * val (Zpos 4503599627370496) (-53)) by reflexivity.
      rewrite Htv in Hy. rewrite Hhalf.
      pose proof (val_pos (Zpos 4503599627370496) (-53) ltac:(lia) ltac:(lia)) as Hh.
      transitivity (val (Zpos my) ey * val (Zpos 4503599627370496) (-53)).
      * replace (val (Zpos m) e * (2 * val (Zpos 4503599627370496) (-53)))
          with ((2 * val (Zpos m) e) * val (Zpos 4503599627370496) (-53)) by ring.
        apply Z.mul_le_mono_nonneg_r; lia.
      * apply Z.mul_le_mono_nonneg_l; [lia|exact Hrv].
Qed.

(** Multiplication by one is exact. *)
Lemma mul_one x : (x * 1)%float = x.
Proof.
  apply Prim2SF_inj. rewrite mul_spec.
  change (Prim2SF 1) with (S754_finite false 4503599627370496 (-52)).
  destruct (Prim2SF x) as [s|s| |s m e] eqn:Hx.
  - destruct s; reflexivity.
  - destruct s; reflexivity.
  - reflexivity.
  - destruct (finite_valid _ _ _ _ Hx) as [Hcan Hb].
    pose proof (canonical_facts _ _ Hcan) as (He & Hm & _ & Hf).
    cbn [SF64mul SFmul]. rewrite xorb_false_r.
    change (Zpos (m * 4503599627370496)) with (Zpos m * 2 ^ 52).
    assert (Hd : Zdigits2 (Zpos m * 2 ^ 52) = Zpos (digits2_pos m) + 52).
    { pose proof (digits2_pos_bounds m) as [Hlo Hhi].
      apply Zdigits2_unique; [|lia].
      replace (Zpos (digits2_pos m) + 52 - 1) with ((Zpos (digits2_pos m) - 1) + 52) by lia.
      rewrite !Z.pow_add_r by lia. lia. }
    assert (Hfe : fexp (Zdigits2 (Zpos m * 2 ^ 52) + (e + -52)) = e).
    { rewrite Hd. rewrite <- Hf at 2. f_equal. lia. }
    destruct (round_aux_rounded s (Zpos m * 2 ^ 52) (e + -52) loc_Exact)
      as (m2 & _ & Hexact & Hr); [lia|lia|].
    rewrite Hfe in Hexact, Hr.
    replace (e - (e + -52)) with 52 in Hexact by lia.
    rewrite Z.mod_mul, Z.div_mul in Hexact by lia.
    specialize (Hexact eq_refl eq_refl). subst m2.
    inversion Hr as [Hz|p e' Hc He' Hee Hval|Hinf].
    + lia.
    + destruct (Z.eq_dec e' e) as [->|Hne].
      * rewrite Z.sub_diag, Z.pow_0_r, Z.mul_1_r in Hval.
        injection Hval as ->. reflexivity.
      * exfalso.
        pose proof (val_lt_of_exponent m e p e' Hcan Hc ltac:(lia)) as Hlt.
        rewrite (val_rounded_finite (Zpos m) e p e') in Hlt by lia. lia.
    + exfalso. destruct Hinf as [[Hgt _]|[_ Heq]]; lia.
Qed.

(** *** Halving *)

Lemma div_core_by_two m e :
  canonical m e = true -> e <= -52 ->
  exists mz ez lz,
    SFdiv_core_binary prec emax (Zpos m) e 4503599627370496 (-51) = (mz, ez, lz)
    /\ 0 <= mz /\ -1074 <= ez /\ ez <= fexp (Zdigits2 mz + ez)
    /\ val (mz + 1) ez <= val 4503599627370496 (-52).
Proof.
  intros Hcan He.
  pose proof (canonical_facts _ _ Hcan) as (Hemin & Hm & _ & Hf).
  pose proof (digits2_pos_bounds m) as [Hlo Hhi].
  unfold SFdiv_core_binary.
  change (Zdigits2 4503599627370496) with 53.
  change (Zdigits2 (Zpos m)) with (Zpos (digits2_pos m)).
  set (d1 := Zpos (digits2_pos m)) in *.
  set (ez := Z.min (fexp (d1 + e - (53 + -51))) (e - -51)).
  assert (Hez : ez = fexp (d1 + e - 2)).
  { unfold ez. replace (d1 + e - (53 + -51)) with (d1 + e - 2) by lia.
    rewrite fexp_eq in *. lia. }
  assert (Hez' : -1074 <= ez <= e) by (rewrite Hez; rewrite fexp_eq in *; lia).
  destruct (e - -51 - ez) as [|p|p] eqn:Hs; try lia.
  rewrite Z.shiftl_mul_pow2 by lia.
  set (N := Zpos m * 2 ^ Zpos p).
  assert (HN : 0 < N) by (apply Z.mul_pos_pos; [lia|pow2_pos]).
  assert (HdN : Zdigits2 N = d1 + Zpos p).
  { apply Zdigits2_unique; [|assumption]. unfold N.
    replace (d1 + Zpos p - 1) with ((d1 - 1) + Zpos p) by lia.
    rewrite !Z.pow_add_r by lia.
    assert (0 < 2 ^ Zpos p) by pow2_pos. nia. }
  destruct (Z.div_eucl N 4503599627370496) as [q r] eqn:Hdiv.
  assert (Hq : q = N / 2 ^ 52).
  { change (2 ^ 52) with 4503599627370496. unfold Z.div. rewrite Hdiv. reflexivity. }
  exists q, ez, (new_location 4503599627370496 r).
  split; [reflexivity|].
  assert (Hq0 : 0 <= q) by (rewrite Hq; apply Z.div_pos; lia).
  split; [assumption|]. split; [lia|]. split.
  - destruct (Z.eq_dec q 0) as [Hz|Hnz].
    + rewrite Hz. cbn [Zdigits2].
      rewrite Hq in Hz. apply Z.div_small_iff in Hz; [|lia].
      destruct Hz as [Hz|Hz]; [|lia].
      assert (Zdigits2 N <= 52).
      { destruct (Z_le_gt_dec (Zdigits2 N) 52) as [|Hgt]; [assumption|].
        destruct (Zdigits2_bounds N HN) as [HloN _].
        assert (2 ^ 52 <= 2 ^ (Zdigits2 N - 1)) by (apply Z.pow_le_mono_r; lia). lia. }
      rewrite fexp_eq in *. lia.
    + rewrite Hq, shifted_digits by (rewrite <- ?Hq; lia).
      rewrite HdN. rewrite Hez. apply fexp_mono. lia.
  - assert (Hq1 : q + 1 <= 2 ^ (Zpos p + 1)).
    { assert (q < 2 ^ (Zpos p + 1)); [|lia].
      rewrite Hq. apply Z.div_lt_upper_bound; [lia|].
      unfold N. rewrite (Z.pow_add_r 2 (Zpos p) 1) by lia.
      change (2 ^ 1) with 2.
      change (2 ^ 53) with (2 * 2 ^ 52) in Hm.
      assert (0 < 2 ^ Zpos p) by pow2_pos. nia. }
    etransitivity; [apply val_le_mono; [lia|exact Hq1]|].
    unfold val. change (Zpos 4503599627370496) with (2 ^ 52).
    rewrite <- !Z.pow_add_r by lia.
    apply Z.pow_le_mono_r; lia.
Qed.

(** A number of at most two, halved, does not exceed one. *)
Lemma div_two_le_one cf :
  (cf <=? 2)%float = true -> (1 <? cf / 2)%float = false.
Proof.
  intros H. rewrite leb_spec in H. rewrite ltb_spec, div_spec.
  change (Prim2SF 2) with (S754_finite false 4503599627370496 (-51)) in *.
  change (Prim2SF 1) with (S754_finite false 4503599627370496 (-52)).
  destruct (Prim2SF cf) as [s|s| |s m e] eqn:Hcf.
  - destruct s; reflexivity.
  - destruct s; [reflexivity|discriminate].
  - discriminate.
  - destruct (finite_valid _ _ _ _ Hcf) as [Hcan Hb].
    destruct s.
    + cbn [SF64div SFdiv xorb].
      destruct (SFdiv_core_binary prec emax (Zpos m) e 4503599627370496 (-51))
        as [[mz ez] lz].
      apply round_aux_negative.
    + rewrite SFleb_of_val in H by (assumption || reflexivity).
      apply Z.leb_le in H.
      assert (He : e <= -51).
      { destruct (Z_le_gt_dec e (-51)) as [|Hgt]; [assumption|exfalso].
        pose proof (val_lt_of_exponent 4503599627370496 (-51) m e eq_refl Hcan
                      ltac:(lia)). lia. }
      destruct (Z.eq_dec e (-51)) as [->|Hne].
      * apply val_le_cancel in H; [|lia].
        apply canonical_facts in Hcan as (_ & _ & Hnormal & _).
        specialize (Hnormal ltac:(lia)).
        change (2 ^ 52) with (Zpos 4503599627370496) in Hnormal.
        assert (Hm : m = 4503599627370496%positive) by lia.
        rewrite Hm. vm_compute. reflexivity.
      * destruct (div_core_by_two m e Hcan ltac:(lia))
          as (mz & ez & lz & Hcore & Hmz & Hez & Hfexp & Hval).
        cbn [SF64div SFdiv xorb]. rewrite Hcore.
        apply round_aux_upper; try assumption; try reflexivity; lia.
Qed.

End Binary64.

(** ** The pipeline's properties *)

Module Properties.
Import Py App.
Local Open Scope float_scope.

(** *** Definitions *)

(** The keys of [VEHICLE_FACTORS] and the vessels of line 82. *)
Definition registry_keys : list string :=
  ["car"; "van"; "bike"; "ev"; "cargo_ship"; "tanker"; "ferry"].

Definition ships : list string := ["cargo_ship"; "tanker"; "ferry"].

(** The documented lookup of a vehicle identifier: the entry of the table
    for a known identifier, the entry of ["car"] for any other. *)
Definition documented_factors (vehicle : string) : Factors :=
  if String.eqb vehicle "car" then mkFactors 1200 1.0 "fuel"
  else if String.eqb vehicle "van" then mkFactors 2500 1.4 "fuel"
  else if String.eqb vehicle "bike" then mkFactors 200 0.2 "fuel"
  else if String.eqb vehicle "ev" then mkFactors 1800 0.0 "electric"
  else if String.eqb vehicle "cargo_ship" then mkFactors 500000 8.0 "fuel"
  else if String.eqb vehicle "tanker" then mkFactors 700000 10.0 "fuel"
  else if String.eqb vehicle "ferry" then mkFactors 100000 5.0 "fuel"
  else mkFactors 1200 1.0 "fuel".

(** The documented route type code: fast=0, eco=1, safe=2, else 0. *)
Definition documented_route_code (route_type : string) : Z :=
  if String.eqb route_type "fast" then 0%Z
  else if String.eqb route_type "eco" then 1%Z
  else if String.eqb route_type "safe" then 2%Z
  else 0%Z.

(** A request with one field replaced. *)
Definition with_vehicle (s : string) (feat : Features) : Features :=
  mkFeatures (distance_km feat) (elevation_gain_m feat) (avg_speed_kph feat)
    (turns feat) (humps feat) (weight_kg feat) (traffic_index feat)
    (route_type feat) s.

Definition with_route_type (s : string) (feat : Features) : Features :=
  mkFeatures (distance_km feat) (elevation_gain_m feat) (avg_speed_kph feat)
    (turns feat) (humps feat) (weight_kg feat) (traffic_index feat)
    s (vehicle feat).

Definition with_weight_kg (w : float) (feat : Features) : Features :=
  mkFeatures (distance_km feat) (elevation_gain_m feat) (avg_speed_kph feat)
    (turns feat) (humps feat) w (traffic_index feat)
    (route_type feat) (vehicle feat).

(** Sample requests and regressors for the concrete instances below. *)
Definition sample (route_type vehicle : string) : Features :=
  mkFeatures 50 0 50 0%Z 0%Z 1000 1 route_type vehicle.

Definition constant_model (fuel co2 : float) : list num -> outcome (float * float) :=
  fun _ => Returns (fuel, co2).

(** *** The handler on samples *)

(** The literals of the handler, as binary64 mantissas and exponents. *)
Lemma handler_literals :
  Prim2SF 0.85 = S754_finite false 7656119366529843 (-53)
  /\ Prim2SF 1.2 = S754_finite false 5404319552844595 (-52)
  /\ Prim2SF 0.2 = S754_finite false 7205759403792794 (-55)
  /\ Prim2SF 2.0 = S754_finite false 4503599627370496 (-51)
  /\ Prim2SF 1.0 = S754_finite false 4503599627370496 (-52).
Proof. repeat split. Qed.

Example car_fast_sample :
  predict (constant_model 10.0 23.1) (sample "fast" "car")
  = Returns {| fuel_l := 10.0; energy_kwh := None; co2_kg := 23.1 |}.
Proof. reflexivity. Qed.

Example ev_sample :
  predict (constant_model 10.0 23.1) (sample "fast" "ev")
  = Returns {| fuel_l := 0.0; energy_kwh := Some 10.0; co2_kg := 0.0 |}.
Proof. reflexivity. Qed.

Example tanker_safe_sample :
  predict (constant_model 100.0 200.0) (sample "safe" "tanker")
  = Returns {| fuel_l := 600.0; energy_kwh := None; co2_kg := 2400.0 |}.
Proof. reflexivity. Qed.

Example regressor_failure_sample :
  predict (fun _ => Raises PredictorFailure) (sample "fast" "car")
  = Raises PredictorFailure.
Proof. reflexivity. Qed.

(** *** Lookups *)

Lemma lookup_factors s :
  VEHICLE_FACTORS !! s
  = if String.eqb s "car" then Some (mkFactors 1200 1.0 "fuel")
    else if String.eqb s "van" then Some (mkFactors 2500 1.4 "fuel")
    else if String.eqb s "bike" then Some (mkFactors 200 0.2 "fuel")
    else if String.eqb s "ev" then Some (mkFactors 1800 0.0 "electric")
    else if String.eqb s "cargo_ship" then Some (mkFactors 500000 8.0 "fuel")
    else if String.eqb s "tanker" then Some (mkFactors 700000 10.0 "fuel")
    else if String.eqb s "ferry" then Some (mkFactors 100000 5.0 "fuel")
    else None.
Proof.
  unfold VEHICLE_FACTORS.
  repeat match goal with
         | |- context [String.eqb s ?k] =>
             destruct (String.eqb_spec s k) as [->|?];
             [reflexivity|rewrite lookup_insert_ne by congruence]
         end.
  apply lookup_empty.
Qed.

Lemma lookup_route s :
  route_map !! s
  = if String.eqb s "fast" then Some 0%Z
    else if String.eqb s "eco" then Some 1%Z
    else if String.eqb s "safe" then Some 2%Z
    else None.
Proof.
  unfold route_map.
  repeat match goal with
         | |- context [String.eqb s ?k] =>
             destruct (String.eqb_spec s k) as [->|?];
             [reflexivity|rewrite lookup_insert_ne by congruence]
         end.
  apply lookup_empty.
Qed.

(** [predict] is the composition of its stages. *)
Lemma predict_stages model feat :
  predict model feat
  = v ← vehicle_factors feat;
    '(fuel, co2) ← model (feature_row feat (weight v) (route_type_val feat));
    Returns (adjust feat v fuel co2).
Proof.
  unfold predict, vehicle_factors, getitem.
  rewrite (lookup_factors "car").
  cbn [String.eqb Ascii.eqb Bool.eqb mbind outcome_bind bind].
  fold (route_type_val feat).
  set (v := get VEHICLE_FACTORS (vehicle feat) _).
  fold (feature_row feat (weight v) (route_type_val feat)).
  destruct (model _) as [[fuel co2]|e]; [|reflexivity].
  unfold adjust, vehicle_scaling, mode_and_route, ship_adjustment.
  destruct (String.eqb (energy_mode v) "electric"); [reflexivity|].
  destruct (contains _ _); [|reflexivity].
  destruct (String.eqb (route_type feat) "eco"); [reflexivity|].
  destruct (String.eqb (route_type feat) "safe"); reflexivity.
Qed.

Lemma vehicle_factors_documented feat :
  vehicle_factors feat = Returns (documented_factors (vehicle feat)).
Proof.
  unfold vehicle_factors, getitem, get.
  rewrite (lookup_factors "car"), (lookup_factors (vehicle feat)).
  unfold documented_factors. cbn [String.eqb Ascii.eqb Bool.eqb mbind outcome_bind bind].
  repeat (destruct (String.eqb (vehicle feat) _); [reflexivity|]).
  reflexivity.
Qed.

Lemma predict_unfold model feat :
  predict model feat
  = '(fuel, co2) ← model (feature_row feat
                            (weight (documented_factors (vehicle feat)))
                            (route_type_val feat));
    Returns (adjust feat (documented_factors (vehicle feat)) fuel co2).
Proof. rewrite predict_stages, vehicle_factors_documented. reflexivity. Qed.

Lemma elem_of_ships s :
  s ∈ ships <-> contains ["cargo_ship"; "tanker"; "ferry"] s = true.
Proof.
  unfold ships, contains. cbn [existsb].
  rewrite !elem_of_cons, elem_of_nil, !orb_true_iff, !String.eqb_eq.
  intuition congruence.
Qed.

Lemma not_elem_of_ships s :
  s ∉ ships <-> contains ["cargo_ship"; "tanker"; "ferry"] s = false.
Proof. rewrite elem_of_ships. destruct (contains _ s); split; congruence. Qed.

Lemma not_electric s : s <> "electric" -> String.eqb s "electric" = false.
Proof. intros H. apply String.eqb_neq. exact H. Qed.

Lemma predict_returns_adjust model feat v fuel_l_raw co2_kg_raw :
  vehicle_factors feat = Returns v ->
  model (feature_row feat (weight v) (route_type_val feat))
  = Returns (fuel_l_raw, co2_kg_raw) ->
  predict model feat = Returns (adjust feat v fuel_l_raw co2_kg_raw).
Proof.
  intros Hv Hmodel. rewrite predict_stages, Hv.
  cbn [mbind outcome_bind bind]. rewrite Hmodel. reflexivity.
Qed.

(** *** Vehicle scaling *)

(** C1: for every request and every raw prediction, the adjustment
    first computes [co2 = co2_kg_raw * co2_factor] and
    [fuel = fuel_l_raw * max(1.0, co2_factor / 2.0)], and the rest of
    [predict] works on these two values; when [co2_factor <= 2.0] the
    multiplier is exactly [1.0] and the scaled fuel is the raw fuel. *)
Theorem vehicle_scaling_floor (feat : Features) (v : Factors)
    (fuel_l_raw co2_kg_raw : float) :
  vehicle_scaling (co2_factor v) fuel_l_raw co2_kg_raw
  = (fuel_l_raw * Py.max 1.0 (co2_factor v / 2.0), co2_kg_raw * co2_factor v)
  /\ (forall model,
        vehicle_factors feat = Returns v ->
        model (feature_row feat (weight v) (route_type_val feat))
        = Returns (fuel_l_raw, co2_kg_raw) ->
        predict model feat
        = Returns (mode_and_route feat (energy_mode v)
                     (fuel_l_raw * Py.max 1.0 (co2_factor v / 2.0))
                     (co2_kg_raw * co2_factor v)))
  /\ ((co2_factor v <=? 2.0) = true ->
      Py.max 1.0 (co2_factor v / 2.0) = 1.0
      /\ fst (vehicle_scaling (co2_factor v) fuel_l_raw co2_kg_raw)
         = fuel_l_raw).
Proof.
  split; [reflexivity|]. split.
  - intros model Hv Hmodel.
    rewrite (predict_returns_adjust _ _ _ _ _ Hv Hmodel). reflexivity.
  - intros Hle.
    assert (Hmax : Py.max 1.0 (co2_factor v / 2.0) = 1.0).
    { unfold Py.max. rewrite (Binary64.div_two_le_one _ Hle). reflexivity. }
    split; [exact Hmax|].
    unfold vehicle_scaling. cbn [fst]. rewrite Hmax. apply Binary64.mul_one.
Qed.

Lemma vehicle_scaling_floor_witness :
  (1.4 <=? 2.0) = true
  /\ Py.max 1.0 (1.4 / 2.0) = 1.0
  /\ fst (vehicle_scaling 1.4 10.0 23.1) = 10.0.
Proof.
  split; [reflexivity|].
  exact (proj2 (proj2 (vehicle_scaling_floor (sample "fast" "van")
                         (mkFactors 2500 1.4 "fuel") 10.0 23.1)) eq_refl).
Defined.

(** *** Energy mode *)

(** C2: when the resolved factors say ["electric"], the answer is exactly
    [{fuel_l: 0.0, energy_kwh: distance_km * 0.2,
      co2_kg: co2_kg_raw * co2_factor}], for every raw prediction, every
    [co2_factor], every route type and every vehicle string: the branch
    for ships is not reached. *)
Theorem electric_short_circuit (feat : Features) (v : Factors)
    (fuel_l_raw co2_kg_raw : float) :
  energy_mode v = "electric" ->
  adjust feat v fuel_l_raw co2_kg_raw
  = {| fuel_l := 0.0;
       energy_kwh := Some (distance_km feat * 0.2);
       co2_kg := co2_kg_raw * co2_factor v |}
  /\ forall model,
       vehicle_factors feat = Returns v ->
       model (feature_row feat (weight v) (route_type_val feat))
       = Returns (fuel_l_raw, co2_kg_raw) ->
       predict model feat
       = Returns {| fuel_l := 0.0;
                    energy_kwh := Some (distance_km feat * 0.2);
                    co2_kg := co2_kg_raw * co2_factor v |}.
Proof.
  intros Hmode.
  assert (Hadj : adjust feat v fuel_l_raw co2_kg_raw
                 = {| fuel_l := 0.0;
                      energy_kwh := Some (distance_km feat * 0.2);
                      co2_kg := co2_kg_raw * co2_factor v |}).
  { unfold adjust, vehicle_scaling, mode_and_route. rewrite Hmode. reflexivity. }
  split; [exact Hadj|].
  intros model Hv Hmodel. rewrite predict_stages, Hv.
  cbn [mbind outcome_bind bind]. rewrite Hmodel.
  cbn [mbind outcome_bind bind]. rewrite Hadj. reflexivity.
Qed.

Lemma electric_short_circuit_witness :
  energy_mode (mkFactors 1800 0.0 "electric") = "electric"
  /\ predict (constant_model 3.0 7.0) (sample "eco" "ev")
     = Returns {| fuel_l := 0.0;
                  energy_kwh := Some (50 * 0.2);
                  co2_kg := 7.0 * 0.0 |}.
Proof.
  split; [reflexivity|].
  exact (proj2 (electric_short_circuit (sample "eco" "ev")
                  (mkFactors 1800 0.0 "electric") 3.0 7.0 eq_refl)
           (constant_model 3.0 7.0) eq_refl eq_refl).
Defined.

(** *** Ships and route types *)

Lemma adjust_fuel_mode feat v fuel_l_raw co2_kg_raw :
  energy_mode v <> "electric" ->
  adjust feat v fuel_l_raw co2_kg_raw
  = let '(fuel, co2) :=
      ship_adjustment feat
        (fst (vehicle_scaling (co2_factor v) fuel_l_raw co2_kg_raw))
        (snd (vehicle_scaling (co2_factor v) fuel_l_raw co2_kg_raw)) in
    {| fuel_l := fuel; energy_kwh := None; co2_kg := co2 |}.
Proof.
  intros Hmode. unfold adjust, vehicle_scaling, mode_and_route.
  rewrite (not_electric _ Hmode). reflexivity.
Qed.

(** C3: for a fuel-mode request, with [fuel] and [co2] the values right
    after the vehicle scaling: a ship on route ["eco"] gets [fuel * 0.85]
    and [co2 * 0.85], on route ["safe"] [fuel * 1.2] and [co2 * 1.2], on any
    other route string [fuel] and [co2]; a vehicle that is not a ship
    gets [fuel] and [co2] on every route, and its adjustment does not look
    at the route type at all. *)
Theorem ship_route_scaling model (feat : Features) (v : Factors)
    (fuel_l_raw co2_kg_raw : float) :
  vehicle_factors feat = Returns v ->
  energy_mode v <> "electric" ->
  model (feature_row feat (weight v) (route_type_val feat))
  = Returns (fuel_l_raw, co2_kg_raw) ->
  let fuel := fst (vehicle_scaling (co2_factor v) fuel_l_raw co2_kg_raw) in
  let co2 := snd (vehicle_scaling (co2_factor v) fuel_l_raw co2_kg_raw) in
  (vehicle feat ∈ ships ->
     (route_type feat = "eco" ->
        predict model feat
        = Returns {| fuel_l := fuel * 0.85; energy_kwh := None;
                     co2_kg := co2 * 0.85 |})
     /\ (route_type feat = "safe" ->
        predict model feat
        = Returns {| fuel_l := fuel * 1.2; energy_kwh := None;
                     co2_kg := co2 * 1.2 |})
     /\ (route_type feat <> "eco" -> route_type feat <> "safe" ->
        predict model feat
        = Returns {| fuel_l := fuel; energy_kwh := None; co2_kg := co2 |}))
  /\ (vehicle feat ∉ ships ->
        predict model feat
        = Returns {| fuel_l := fuel; energy_kwh := None; co2_kg := co2 |}
        /\ forall (r : string) (w : Factors) (f c : float),
             adjust (with_route_type r feat) w f c = adjust feat w f c).
Proof.
  intros Hv Hmode Hmodel fuel co2.
  rewrite (predict_returns_adjust _ _ _ _ _ Hv Hmodel).
  rewrite (adjust_fuel_mode _ _ _ _ Hmode). fold fuel co2.
  unfold ship_adjustment. split.
  - intros Hship. apply elem_of_ships in Hship. rewrite Hship.
    repeat split.
    + intros ->. reflexivity.
    + intros ->. reflexivity.
    + intros Heco Hsafe.
      apply String.eqb_neq in Heco, Hsafe. rewrite Heco, Hsafe. reflexivity.
  - intros Hland. apply not_elem_of_ships in Hland. rewrite Hland.
    split; [reflexivity|].
    intros r w f c. unfold adjust, mode_and_route, ship_adjustment.
    cbn [with_route_type vehicle distance_km]. rewrite Hland. reflexivity.
Qed.

Lemma ship_route_scaling_witness :
  predict (constant_model 100.0 200.0) (sample "safe" "ferry")
  = Returns {| fuel_l := 100.0 * Py.max 1.0 (5.0 / 2.0) * 1.2;
               energy_kwh := None;
               co2_kg := 200.0 * 5.0 * 1.2 |}.
Proof.
  refine (proj1 (proj2 (proj1
    (ship_route_scaling (constant_model 100.0 200.0) (sample "safe" "ferry")
       (mkFactors 100000 5.0 "fuel") 100.0 200.0 eq_refl _ eq_refl) _)) eq_refl).
  - discriminate.
  - apply elem_of_ships. reflexivity.
Defined.

(** C4: vehicle ["cargo_ship"], route ["eco"], raw prediction
    [(100.0, 200.0)]: the answer is exactly
    [{fuel_l: 340.0, co2_kg: 1360.0}]. *)
Theorem cargo_ship_eco_scenario model (feat : Features) :
  vehicle feat = "cargo_ship" ->
  route_type feat = "eco" ->
  model (feature_row feat 500000 1) = Returns (100.0, 200.0) ->
  predict model feat
  = Returns {| fuel_l := 340.0; energy_kwh := None; co2_kg := 1360.0 |}.
Proof.
  intros Hvehicle Hroute Hmodel.
  assert (Hcode : route_type_val feat = 1%Z).
  { unfold route_type_val, get. rewrite lookup_route, Hroute. reflexivity. }
  rewrite predict_unfold, Hcode, Hvehicle.
  change (documented_factors "cargo_ship") with (mkFactors 500000 8.0 "fuel").
  cbn [weight]. rewrite Hmodel. cbn [mbind outcome_bind bind].
  unfold adjust, vehicle_scaling, mode_and_route, ship_adjustment.
  rewrite Hvehicle, Hroute. reflexivity.
Qed.

Lemma cargo_ship_eco_scenario_witness :
  predict (constant_model 100.0 200.0) (sample "eco" "cargo_ship")
  = Returns {| fuel_l := 340.0; energy_kwh := None; co2_kg := 1360.0 |}.
Proof.
  exact (cargo_ship_eco_scenario (constant_model 100.0 200.0)
           (sample "eco" "cargo_ship") eq_refl eq_refl eq_refl).
Defined.

(** *** Lookups never fail *)

Lemma unknown_vehicle_eqb s :
  s ∉ registry_keys ->
  String.eqb s "car" = false /\ String.eqb s "van" = false
  /\ String.eqb s "bike" = false /\ String.eqb s "ev" = false
  /\ String.eqb s "cargo_ship" = false /\ String.eqb s "tanker" = false
  /\ String.eqb s "ferry" = false.
Proof.
  unfold registry_keys. rewrite !not_elem_of_cons, !String.eqb_neq. tauto.
Qed.

Lemma unknown_vehicle_documented s :
  s ∉ registry_keys -> documented_factors s = mkFactors 1200 1.0 "fuel".
Proof.
  intros H. apply unknown_vehicle_eqb in H as (H1 & H2 & H3 & H4 & H5 & H6 & H7).
  unfold documented_factors. rewrite H1, H2, H3, H4, H5, H6, H7. reflexivity.
Qed.

Lemma route_type_val_documented feat :
  route_type_val feat = documented_route_code (route_type feat).
Proof.
  unfold route_type_val, get, documented_route_code. rewrite lookup_route.
  repeat (destruct (String.eqb (route_type feat) _); [reflexivity|]).
  reflexivity.
Qed.

(** C5: the lookup of the vehicle returns, never raises: the documented
    entry for each of the seven identifiers and the entry of ["car"] for
    every other string; the route type code is 0 for ["fast"], 1 for
    ["eco"], 2 for ["safe"] and 0 for every other string. *)
Theorem lookup_never_fails (feat : Features) :
  vehicle_factors feat = Returns (documented_factors (vehicle feat))
  /\ (vehicle feat ∉ registry_keys ->
      vehicle_factors feat = Returns (mkFactors 1200 1.0 "fuel"))
  /\ route_type_val feat = documented_route_code (route_type feat)
  /\ (route_type feat ∉ ["fast"; "eco"; "safe"] -> route_type_val feat = 0%Z).
Proof.
  split; [apply vehicle_factors_documented|]. split.
  - intros H. rewrite vehicle_factors_documented.
    rewrite (unknown_vehicle_documented _ H). reflexivity.
  - split; [apply route_type_val_documented|].
    intros H. rewrite route_type_val_documented. unfold documented_route_code.
    rewrite !not_elem_of_cons, <- !String.eqb_neq in H.
    destruct H as (H1 & H2 & H3 & _). rewrite H1, H2, H3. reflexivity.
Qed.

Lemma lookup_never_fails_witness :
  vehicle_factors (sample "scenic" "hovercraft")
  = Returns (mkFactors 1200 1.0 "fuel")
  /\ route_type_val (sample "scenic" "hovercraft") = 0%Z.
Proof.
  split.
  - refine (proj1 (proj2 (lookup_never_fails (sample "scenic" "hovercraft"))) _).
    unfold registry_keys. rewrite !not_elem_of_cons. cbn [sample vehicle].
    repeat split; try discriminate. apply not_elem_of_nil.
  - refine (proj2 (proj2 (proj2 (lookup_never_fails (sample "scenic" "hovercraft")))) _).
    rewrite !not_elem_of_cons. cbn [sample route_type].
    repeat split; try discriminate. apply not_elem_of_nil.
Defined.

(** *** The feature row *)

(** C6: the regressor is called on the eight entries [distance_km;
    elevation_gain_m; avg_speed_kph; turns; humps; weight of the resolved
    factors; traffic_index; route type code], in this order; entry 5 is
    the weight of the resolved factors, and the row does not change with
    the request's [weight_kg]. *)
Theorem feature_row_layout model (feat : Features) (v : Factors) :
  vehicle_factors feat = Returns v ->
  let X := [ Float (distance_km feat); Float (elevation_gain_m feat);
             Float (avg_speed_kph feat); Int (turns feat); Int (humps feat);
             Int (weight v); Float (traffic_index feat);
             Int (route_type_val feat) ] in
  predict model feat
  = ('(fuel, co2) ← model X; Returns (adjust feat v fuel co2))
  /\ length X = 8%nat
  /\ X !! 5%nat = Some (Int (weight v))
  /\ forall w : float,
       vehicle_factors (with_weight_kg w feat) = Returns v
       /\ feature_row (with_weight_kg w feat) (weight v)
            (route_type_val (with_weight_kg w feat)) = X.
Proof.
  intros Hv X. split.
  - rewrite predict_stages, Hv. reflexivity.
  - split; [reflexivity|]. split; [reflexivity|].
    intros w. split; [exact Hv|reflexivity].
Qed.

Lemma feature_row_layout_witness :
  predict (constant_model 10.0 23.1) (sample "safe" "van")
  = ('(fuel, co2) ← constant_model 10.0 23.1
         [ Float 50; Float 0; Float 50; Int 0; Int 0; Int 2500; Float 1;
           Int 2 ];
     Returns (adjust (sample "safe" "van") (mkFactors 2500 1.4 "fuel") fuel co2)).
Proof.
  exact (proj1 (feature_row_layout (constant_model 10.0 23.1)
                  (sample "safe" "van") (mkFactors 2500 1.4 "fuel") eq_refl)).
Defined.

(** *** No exception *)

(** C7: for every request (any numbers, any strings), [predict] returns
    an answer and raises nothing, provided the regressor returns its two
    floats on the one call that [predict] makes: on the row of the
    request.  What the regressor does on any other row does not matter. *)
Theorem predict_never_raises model (feat : Features) :
  (exists fuel co2 : float,
     model (feature_row feat (weight (documented_factors (vehicle feat)))
              (route_type_val feat))
     = Returns (fuel, co2)) ->
  exists r : Prediction, predict model feat = Returns r.
Proof.
  intros (fuel & co2 & Hmodel). rewrite predict_unfold, Hmodel.
  eexists. reflexivity.
Qed.

Lemma predict_never_raises_witness :
  exists r : Prediction,
    predict
      (fun X =>
         match X !! 5%nat with
         | Some (Int 1200) => Returns (10.0, 23.1)
         | _ => Raises PredictorFailure
         end)
      (mkFeatures (-5) (-1) 0 (-3) (-7) nan infinity "scenic" "hovercraft")
    = Returns r.
Proof.
  apply predict_never_raises. exists 10.0, 23.1. reflexivity.
Defined.

(** *** Trainer and server tables *)

(** C8: [VEHICLE_FACTORS] of [train_model.py] is [VEHICLE_FACTORS] of
    [app.py] (the same seven keys with the same weight, CO2 factor and
    energy mode), and [ROUTE_TYPES] is [route_map]. *)
Theorem trainer_tables_agree :
  TrainModel.VEHICLE_FACTORS = App.VEHICLE_FACTORS
  /\ TrainModel.ROUTE_TYPES = App.route_map
  /\ (forall k : string,
        is_Some (TrainModel.VEHICLE_FACTORS !! k) <-> k ∈ registry_keys)
  /\ length registry_keys = 7%nat.
Proof.
  split; [reflexivity|]. split; [reflexivity|]. split; [|reflexivity].
  intros k. change TrainModel.VEHICLE_FACTORS with App.VEHICLE_FACTORS.
  rewrite lookup_factors. unfold registry_keys.
  rewrite !elem_of_cons, elem_of_nil, <- !String.eqb_eq.
  repeat (destruct (String.eqb k _);
          [split; [intros _; tauto|intros _; eexists; reflexivity]|]).
  split; [intros [x Hx]; discriminate|intuition congruence].
Qed.

(** *** Unknown vehicles *)

Lemma unknown_vehicle_not_ship s :
  s ∉ registry_keys -> contains ["cargo_ship"; "tanker"; "ferry"] s = false.
Proof.
  intros H. apply unknown_vehicle_eqb in H as (_ & _ & _ & _ & H5 & H6 & H7).
  unfold contains. cbn [existsb]. rewrite H5, H6, H7. reflexivity.
Qed.

(** C9: a request whose vehicle is none of the seven keys gets the
    answer of the same request with vehicle ["car"], for every regressor:
    it resolves to the factors of ["car"], and it is not one of the
    vessels of the ship branch. *)
Theorem unknown_vehicle_as_car model (feat : Features) :
  vehicle feat ∉ registry_keys ->
  predict model feat = predict model (with_vehicle "car" feat)
  /\ vehicle_factors feat = vehicle_factors (with_vehicle "car" feat)
  /\ contains ["cargo_ship"; "tanker"; "ferry"] (vehicle feat) = false.
Proof.
  intros Hunknown.
  pose proof (unknown_vehicle_not_ship _ Hunknown) as Hship.
  pose proof (unknown_vehicle_documented _ Hunknown) as Hdoc.
  split; [|split; [|exact Hship]].
  - rewrite !predict_unfold, Hdoc.
    change (documented_factors (vehicle (with_vehicle "car" feat)))
      with (mkFactors 1200 1.0 "fuel").
    change (route_type_val (with_vehicle "car" feat)) with (route_type_val feat).
    change (feature_row (with_vehicle "car" feat)) with (feature_row feat).
    destruct (model _) as [[fuel co2]|e]; [|reflexivity].
    cbn [mbind outcome_bind bind]. f_equal.
    unfold adjust, mode_and_route, ship_adjustment.
    rewrite Hship. reflexivity.
  - rewrite !vehicle_factors_documented, Hdoc. reflexivity.
Qed.

Lemma unknown_vehicle_as_car_witness :
  predict (constant_model 10.0 23.1) (sample "eco" "hovercraft")
  = predict (constant_model 10.0 23.1) (with_vehicle "car" (sample "eco" "hovercraft")).
Proof.
  refine (proj1 (unknown_vehicle_as_car (constant_model 10.0 23.1)
                   (sample "eco" "hovercraft") _)).
  unfold registry_keys. rewrite !not_elem_of_cons. cbn [sample vehicle].
  repeat split; try discriminate. apply not_elem_of_nil.
Defined.

(** *** Fuel is never scaled below the raw estimate *)

Lemma ship_adjustment_fuel_ge feat cf fuel_l_raw co2_kg_raw :
  (0 <=? fuel_l_raw) = true ->
  (2 <=? Py.max 1.0 (cf / 2.0)) = true ->
  (Py.max 1.0 (cf / 2.0) <? infinity) = true ->
  (fuel_l_raw
   <=? fst (ship_adjustment feat
              (fst (vehicle_scaling cf fuel_l_raw co2_kg_raw))
              (snd (vehicle_scaling cf fuel_l_raw co2_kg_raw)))) = true.
Proof.
  intros Hraw Htwo Hfin.
  assert (Hone : (1 <=? Py.max 1.0 (cf / 2.0)) = true).
  { unfold Py.max. destruct (1.0 <? cf / 2.0) eqn:Hlt; [|reflexivity].
    rewrite leb_spec. rewrite ltb_spec in Hlt. unfold SFleb, SFltb in *.
    destruct (SFcompare _ _) as [[]|]; congruence. }
  unfold ship_adjustment, vehicle_scaling. cbn [fst snd].
  destruct (contains _ _); [|apply Binary64.mul_ge; assumption].
  destruct (String.eqb (route_type feat) "eco"); cbn [fst].
  - apply Binary64.mul_mul_ge; try assumption; reflexivity.
  - destruct (String.eqb (route_type feat) "safe"); cbn [fst].
    + apply Binary64.mul_mul_ge; try assumption; reflexivity.
    + apply Binary64.mul_ge; assumption.
Qed.

Lemma land_fuel_ge feat cf fuel_l_raw co2_kg_raw :
  (0 <=? fuel_l_raw) = true ->
  (1 <=? Py.max 1.0 (cf / 2.0)) = true ->
  (Py.max 1.0 (cf / 2.0) <? infinity) = true ->
  contains ["cargo_ship"; "tanker"; "ferry"] (vehicle feat) = false ->
  (fuel_l_raw
   <=? fst (ship_adjustment feat
              (fst (vehicle_scaling cf fuel_l_raw co2_kg_raw))
              (snd (vehicle_scaling cf fuel_l_raw co2_kg_raw)))) = true.
Proof.
  intros Hraw Hone Hfin Hland.
  unfold ship_adjustment, vehicle_scaling. rewrite Hland. cbn [fst snd].
  apply Binary64.mul_ge; assumption.
Qed.

(** C10: for a vehicle of the table whose energy mode is ["fuel"], every
    route type string and every raw prediction whose fuel is not below
    zero, the answer's [fuel_l] is not below the raw fuel. *)
Theorem fuel_not_below_raw model (feat : Features) (v : Factors)
    (fuel_l_raw co2_kg_raw : float) :
  VEHICLE_FACTORS !! vehicle feat = Some v ->
  energy_mode v = "fuel" ->
  (0 <=? fuel_l_raw) = true ->
  model (feature_row feat (weight v) (route_type_val feat))
  = Returns (fuel_l_raw, co2_kg_raw) ->
  exists r : Prediction,
    predict model feat = Returns r /\ (fuel_l_raw <=? fuel_l r) = true.
Proof.
  intros Hlookup Hmode Hraw Hmodel.
  assert (Hv : vehicle_factors feat = Returns v).
  { unfold vehicle_factors, getitem, get.
    rewrite (lookup_factors "car"), Hlookup. reflexivity. }
  exists (adjust feat v fuel_l_raw co2_kg_raw).
  split; [apply predict_returns_adjust; assumption|].
  rewrite adjust_fuel_mode by (rewrite Hmode; discriminate).
  destruct (ship_adjustment feat _ _) as [fuel co2] eqn:Hship.
  cbn [fuel_l]. change fuel with (fst (fuel, co2)). rewrite <- Hship.
  rewrite lookup_factors in Hlookup.
  repeat match type of Hlookup with
         | (if String.eqb ?s ?k then _ else _) = _ =>
             destruct (String.eqb_spec s k) as [Hkey|_]
         end;
    try discriminate;
    injection Hlookup as <-; try discriminate Hmode; cbn [co2_factor];
    first [ apply ship_adjustment_fuel_ge; [assumption|reflexivity..]
          | apply land_fuel_ge;
            [assumption|reflexivity|reflexivity|rewrite Hkey; reflexivity] ].
Qed.

Lemma fuel_not_below_raw_witness :
  exists r : Prediction,
    predict (constant_model 100.0 200.0) (sample "eco" "ferry") = Returns r
    /\ (100.0 <=? fuel_l r) = true.
Proof.
  exact (fuel_not_below_raw (constant_model 100.0 200.0) (sample "eco" "ferry")
           (mkFactors 100000 5.0 "fuel") 100.0 200.0
           eq_refl eq_refl eq_refl eq_refl).
Defined.

End Properties.

(** ** More binary64 arithmetic: order, signs and zero *)

Module Binary64Order.
Import Binary64.
Local Open Scope Z_scope.

(** *** The order is total away from NaN *)

Lemma SFcompare_antisym a b :
  SFcompare b a = option_map CompOpp (SFcompare a b).
Proof.
  destruct a as [sa|sa| |sa ma ea], b as [sb|sb| |sb mb eb];
    try (destruct sa; reflexivity); try (destruct sb; reflexivity);
    try (destruct sa, sb; reflexivity); try reflexivity.
  cbn [SFcompare option_map]. f_equal.
  assert (Hm : Pos.compare_cont Eq mb ma = CompOpp (Pos.compare_cont Eq ma mb)).
  { rewrite Pos.compare_cont_antisym. reflexivity. }
  rewrite (Z.compare_antisym ea eb), Hm.
  destruct sa, sb, (ea ?= eb), (Pos.compare_cont Eq ma mb); reflexivity.
Qed.

Lemma SFcompare_defined a b :
  SFleb a a = true -> SFleb b b = true -> exists c, SFcompare a b = Some c.
Proof.
  destruct a as [sa|sa| |sa ma ea], b as [sb|sb| |sb mb eb];
    try discriminate; intros _ _; cbn [SFcompare]; eauto.
Qed.

Lemma leb_of_not_ltb x y :
  (x <=? x)%float = true -> (y <=? y)%float = true ->
  (y <? x)%float = false -> (x <=? y)%float = true.
Proof.
  rewrite !leb_spec, ltb_spec. intros Hx Hy Hlt.
  destruct (SFcompare_defined _ _ Hy Hx) as [c Hc].
  unfold SFleb, SFltb in *.
  rewrite (SFcompare_antisym (Prim2SF y) (Prim2SF x)), Hc.
  rewrite Hc in Hlt. destruct c; cbn [option_map CompOpp]; congruence.
Qed.

Lemma leb_refl_of_nonneg x : (0 <=? x)%float = true -> (x <=? x)%float = true.
Proof.
  intros H. pose proof (nonneg_cases x H) as Hn. rewrite leb_spec.
  inversion Hn as [s Hs|Hs|m e Hc Hb Hs].
  - reflexivity.
  - reflexivity.
  - unfold SFleb. rewrite compare_canonical by assumption.
    rewrite Z.compare_refl. reflexivity.
Qed.

(** *** Signs of products *)

Lemma round_aux_nonneg mx ex lx :
  0 <= mx -> ex <= fexp (Zdigits2 mx + ex) ->
  SFleb (S754_zero false) (round_aux false mx ex lx) = true.
Proof.
  intros Hmx Hex.
  destruct (round_aux_rounded false mx ex lx Hmx Hex) as (m2 & _ & _ & Hr).
  inversion Hr; reflexivity.
Qed.

Lemma finite_pos c :
  (0 <? c)%float = true -> (c <? infinity)%float = true ->
  exists mc ec, Prim2SF c = S754_finite false mc ec.
Proof.
  rewrite !ltb_spec.
  change (Prim2SF 0) with (S754_zero false).
  change (Prim2SF infinity) with (S754_infinity false).
  intros Hpos Hfin.
  destruct (Prim2SF c) as [[|]|[|]| |[|] m e];
    try discriminate Hpos; try discriminate Hfin.
  eauto.
Qed.

(** A number that is not below zero, times a finite factor above zero, is
    not below zero (and is not NaN). *)
Lemma mul_nonneg x c :
  (0 <=? x)%float = true -> (0 <? c)%float = true ->
  (c <? infinity)%float = true -> (0 <=? x * c)%float = true.
Proof.
  intros Hx Hc Hfin.
  destruct (finite_pos c Hc Hfin) as (mc & ec & Hcs).
  pose proof (nonneg_cases x Hx) as Hn.
  rewrite leb_spec, mul_spec. change (Prim2SF 0) with (S754_zero false).
  destruct (Prim2SF x) as [s|s| |s m e] eqn:Hxs; inversion Hn as [| |? ? Hcan Hb]; subst;
    rewrite Hcs.
  - destruct s; reflexivity.
  - reflexivity.
  - destruct (finite_valid _ _ _ _ Hcs) as [Hcc _].
    cbn [SF64mul SFmul xorb].
    change (Zpos (m * mc)) with (Zpos m * Zpos mc).
    apply round_aux_nonneg; [lia|]. apply product_exponent; assumption.
Qed.

(** *** Factors of at most one *)

Lemma canonical_unique m1 e1 m2 e2 :
  canonical m1 e1 = true -> canonical m2 e2 = true ->
  val (Zpos m1) e1 = val (Zpos m2) e2 -> m1 = m2 /\ e1 = e2.
Proof.
  intros H1 H2 Hv.
  assert (He : e1 = e2).
  { destruct (Z.lt_trichotomy e1 e2) as [Hlt|[Heq|Hgt]]; [|assumption|].
    - pose proof (val_lt_of_exponent _ _ _ _ H1 H2 Hlt). lia.
    - pose proof (val_lt_of_exponent _ _ _ _ H2 H1 ltac:(lia)). lia. }
  subst e2. split; [|reflexivity].
  apply canonical_facts in H1 as (He1 & _).
  assert (Zpos m1 <= Zpos m2) by (apply (val_le_cancel _ _ e1); lia).
  assert (Zpos m2 <= Zpos m1) by (apply (val_le_cancel _ _ e1); lia).
  lia.
Qed.

Lemma finite_le k c mk ek :
  Prim2SF k = S754_finite false mk ek ->
  (0 <? c)%float = true -> (c <=? k)%float = true ->
  exists mc ec,
    Prim2SF c = S754_finite false mc ec
    /\ val (Zpos mc) ec <= val (Zpos mk) ek.
Proof.
  intros Hk Hpos Hle. rewrite ltb_spec in Hpos. rewrite leb_spec, Hk in Hle.
  change (Prim2SF 0) with (S754_zero false) in Hpos.
  destruct (finite_valid _ _ _ _ Hk) as [Hck _].
  destruct (Prim2SF c) as [s|s| |s m e] eqn:Hc.
  - destruct s; discriminate.
  - destruct s; discriminate.
  - discriminate.
  - destruct (finite_valid _ _ _ _ Hc) as [Hcc _].
    destruct s; [discriminate|].
    rewrite SFleb_of_val in Hle by assumption.
    exists m, e. split; [reflexivity|]. apply Z.leb_le. assumption.
Qed.

Lemma val_lt_cancel m n e : -2200 <= e -> val m e < val n e -> m < n.
Proof.
  intros He H. unfold val in H.
  apply Z.mul_lt_mono_pos_r in H; [assumption|pow2_pos].
Qed.

(** Below one, a factor leaves room for the unit that rounding may add. *)
Lemma val_succ_product m mc e ec :
  -1074 <= e -> -1074 <= ec ->
  val (Zpos mc) ec < val 1 0 ->
  val (Zpos m * Zpos mc + 1) (e + ec) <= val (Zpos m) e.
Proof.
  intros He Hec Hlt.
  assert (Hneg : ec < 0).
  { destruct (Z_lt_le_dec ec 0) as [|Hge]; [assumption|exfalso].
    rewrite (val_shift (Zpos mc) ec 0) in Hlt by lia.
    apply val_lt_cancel in Hlt; [|lia].
    assert (0 < 2 ^ (ec - 0)) by pow2_pos. nia. }
  assert (Hmc : Zpos mc < 2 ^ (- ec)).
  { rewrite (val_shift 1 0 ec) in Hlt by lia.
    apply val_lt_cancel in Hlt; [|lia].
    replace (0 - ec) with (- ec) in Hlt by lia. lia. }
  rewrite (val_shift (Zpos m) e (e + ec)) by lia.
  apply val_le_mono; [lia|].
  replace (e - (e + ec)) with (- ec) by lia. nia.
Qed.

(** A number that is not below zero, times a factor above zero and at
    most one, does not grow. *)
Lemma mul_le x c :
  (0 <=? x)%float = true -> (0 <? c)%float = true ->
  (c <=? 1)%float = true -> (x * c <=? x)%float = true.
Proof.
  intros Hx Hc Hle.
  destruct (finite_le 1 c 4503599627370496 (-52) eq_refl Hc Hle)
    as (mc & ec & Hcs & Hcv).
  destruct (finite_valid _ _ _ _ Hcs) as [Hcc _].
  destruct (Z.eq_dec (val (Zpos mc) ec) (val (Zpos 4503599627370496) (-52)))
    as [Heq|Hne].
  { assert (Hone : canonical 4503599627370496 (-52) = true) by reflexivity.
    destruct (canonical_unique _ _ _ _ Hcc Hone Heq) as [-> ->].
    assert (Hc1 : c = 1%float) by (apply Prim2SF_inj; rewrite Hcs; reflexivity).
    rewrite Hc1, mul_one. apply leb_refl_of_nonneg. assumption. }
  assert (Hfin : (c <? infinity)%float = true).
  { rewrite ltb_spec, Hcs. reflexivity. }
  apply leb_of_not_ltb.
  - apply leb_refl_of_nonneg, mul_nonneg; assumption.
  - apply leb_refl_of_nonneg; assumption.
  - pose proof (nonneg_cases x Hx) as Hn.
    rewrite ltb_spec, mul_spec.
    destruct (Prim2SF x) as [s|s| |s m e] eqn:Hxs;
      inversion Hn as [| |? ? Hcan Hb]; subst; rewrite Hcs.
    + destruct s; reflexivity.
    + reflexivity.
    + pose proof (canonical_facts _ _ Hcan) as (He & _).
      pose proof (canonical_facts _ _ Hcc) as (Hec & _).
      cbn [SF64mul SFmul xorb].
      change (Zpos (m * mc)) with (Zpos m * Zpos mc).
      apply round_aux_upper; try assumption; try lia.
      { apply product_exponent; assumption. }
      apply val_succ_product; try assumption.
      change (val 1 0) with (val (Zpos 4503599627370496) (-52)). lia.
Qed.

(** *** Products with zero *)

(** A finite number times [0.0] is a zero. *)
Lemma mul_zero_finite x :
  (abs x <? infinity)%float = true -> (x * 0 =? 0)%float = true.
Proof.
  rewrite ltb_spec, abs_spec, FloatAxioms.eqb_spec, mul_spec.
  change (Prim2SF 0) with (S754_zero false).
  change (Prim2SF infinity) with (S754_infinity false).
  intros H.
  destruct (Prim2SF x) as [s|s| |s m e]; try discriminate;
    destruct s; reflexivity.
Qed.

(** An infinity or a NaN times [0.0] is NaN. *)
Lemma mul_zero_not_finite x :
  (abs x <? infinity)%float = false -> (x * 0)%float = nan.
Proof.
  rewrite ltb_spec, abs_spec. intros H.
  apply Prim2SF_inj. rewrite mul_spec.
  change (Prim2SF 0) with (S754_zero false).
  change (Prim2SF infinity) with (S754_infinity false) in H.
  change (Prim2SF nan) with S754_nan.
  destruct (Prim2SF x) as [s|s| |s m e]; try discriminate; reflexivity.
Qed.

End Binary64Order.

(** ** Behaviour of the code around the pipeline *)

Module Behaviour.
Import Py App.
Local Open Scope float_scope.

(** *** Definitions *)

(** The request that carries the trip of a training sample. *)
Definition request_of (s : Trainer.Sample) (weight_kg : float) : Features :=
  mkFeatures (Trainer.distance_km s) (Trainer.elevation_gain_m s)
    (Trainer.avg_speed_kph s) (Trainer.turns s) (Trainer.humps s) weight_kg
    (Trainer.traffic_index s) (Trainer.route_type s) (Trainer.vehicle s).

(** A body that gives nothing but the distance. *)
Definition bare_body (distance_km : float) : Service.Body :=
  Service.mkBody (Some distance_km) None None None None None None None None.

Definition feature_labels : list string :=
  [ "distance_km"; "elevation_gain_m"; "avg_speed_kph"; "turns"; "humps";
    "weight_kg"; "traffic_index"; "route_type" ].

Definition target_labels : list string := ["fuel_l"; "co2_kg"].

(** Lines 50-62 for a sample of the vehicle ["ev"], whose weight gives
    [1800 / 1000 = 1.8]: the base CO2 after the route adjustment. *)
Definition ev_base_co2 (s : Trainer.Sample) : float :=
  let base_fuel := Trainer.distance_km s / 12.0 + 1.8 * 0.5 in
  let base_co2 := base_fuel * 2.31 in
  if String.eqb (Trainer.route_type s) "eco" then
    base_co2 * (0.9 + Trainer.noise_co2 s)
  else if String.eqb (Trainer.route_type s) "safe" then
    base_co2 * (1.2 + Trainer.noise_co2 s)
  else base_co2 * (1.05 + Trainer.noise_co2 s).

(** *** Requests with defaults *)



(** *** The shape of the answer *)

Lemma documented_energy_mode s :
  energy_mode (Properties.documented_factors s)
  = if String.eqb s "ev" then "electric" else "fuel".
Proof.
  unfold Properties.documented_factors.
  repeat match goal with
         | |- context [String.eqb s ?k] =>
             destruct (String.eqb_spec s k) as [->|?]; [reflexivity|]
         end.
  reflexivity.
Qed.

(** X2: an answer carries [energy_kwh] exactly when the vehicle string
    of the request is ["ev"]. *)
Theorem energy_kwh_iff_ev model (feat : Features) (r : Prediction) :
  predict model feat = Returns r ->
  (is_Some (energy_kwh r) <-> vehicle feat = "ev").
Proof.
  rewrite Properties.predict_unfold.
  destruct (model _) as [[fuel co2]|e]; [|discriminate].
  cbn [mbind outcome_bind bind]. intros [= <-].
  unfold adjust, vehicle_scaling, mode_and_route.
  rewrite documented_energy_mode.
  destruct (String.eqb_spec (vehicle feat) "ev") as [Hev|Hev].
  - cbn [String.eqb Ascii.eqb Bool.eqb energy_kwh]. split; [auto|eauto].
  - cbn [String.eqb Ascii.eqb Bool.eqb].
    destruct (ship_adjustment feat _ _) as [fuel' co2'].
    cbn [energy_kwh]. split; [intros [x Hx]; discriminate|contradiction].
Qed.

Lemma energy_kwh_iff_ev_witness :
  is_Some (energy_kwh {| fuel_l := 0.0; energy_kwh := Some 10.0; co2_kg := 0.0 |})
  <-> vehicle (Properties.sample "fast" "ev") = "ev".
Proof.
  exact (energy_kwh_iff_ev (Properties.constant_model 10.0 23.1)
           (Properties.sample "fast" "ev") _ eq_refl).
Defined.

(** *** Vehicles that are neither electric nor ships *)

Lemma max_one_half_le cf :
  (cf <=? 2.0) = true -> forall x : float, x * Py.max 1.0 (cf / 2.0) = x.
Proof.
  intros Hle x. unfold Py.max.
  rewrite (Binary64.div_two_le_one _ Hle). apply Binary64.mul_one.
Qed.



(** *** The electric vehicle *)

(** X4: for vehicle ["ev"] the answer's [fuel_l] is [0.0] and its
    [energy_kwh] is [distance_km * 0.2]; its [co2_kg] is a zero when the
    raw CO2 is finite, and NaN when the raw CO2 is an infinity or NaN. *)
Theorem ev_answer model (feat : Features) (fuel_l_raw co2_kg_raw : float) :
  vehicle feat = "ev" ->
  model (feature_row feat 1800 (route_type_val feat))
  = Returns (fuel_l_raw, co2_kg_raw) ->
  exists r : Prediction,
    predict model feat = Returns r
    /\ fuel_l r = 0.0
    /\ energy_kwh r = Some (distance_km feat * 0.2)
    /\ ((abs co2_kg_raw <? infinity) = true -> (co2_kg r =? 0.0) = true)
    /\ ((abs co2_kg_raw <? infinity) = false -> co2_kg r = nan).
Proof.
  intros Hev Hmodel.
  assert (Hv : vehicle_factors feat = Returns (mkFactors 1800 0.0 "electric")).
  { rewrite Properties.vehicle_factors_documented, Hev. reflexivity. }
  exists (adjust feat (mkFactors 1800 0.0 "electric") fuel_l_raw co2_kg_raw).
  split; [exact (Properties.predict_returns_adjust _ _ _ _ _ Hv Hmodel)|].
  unfold adjust, vehicle_scaling, mode_and_route.
  cbn [fuel_l energy_kwh co2_kg co2_factor energy_mode
       String.eqb Ascii.eqb Bool.eqb].
  repeat split.
  - apply Binary64Order.mul_zero_finite.
  - apply Binary64Order.mul_zero_not_finite.
Qed.

Lemma ev_answer_witness :
  exists r : Prediction,
    predict (Properties.constant_model 3.0 infinity) (Properties.sample "eco" "ev")
    = Returns r
    /\ fuel_l r = 0.0
    /\ energy_kwh r = Some (50 * 0.2)
    /\ ((abs infinity <? infinity) = true -> (co2_kg r =? 0.0) = true)
    /\ ((abs infinity <? infinity) = false -> co2_kg r = nan).
Proof.
  exact (ev_answer (Properties.constant_model 3.0 infinity)
           (Properties.sample "eco" "ev") 3.0 infinity eq_refl eq_refl).
Defined.

(** *** The three routes of a ship *)

Lemma ship_adjust_route feat v fuel_l_raw co2_kg_raw (r : string) :
  contains ["cargo_ship"; "tanker"; "ferry"] (vehicle feat) = true ->
  energy_mode v = "fuel" ->
  adjust (Properties.with_route_type r feat) v fuel_l_raw co2_kg_raw
  = let fuel := fuel_l_raw * Py.max 1.0 (co2_factor v / 2.0) in
    let co2 := co2_kg_raw * co2_factor v in
    if String.eqb r "eco" then
      {| fuel_l := fuel * 0.85; energy_kwh := None; co2_kg := co2 * 0.85 |}
    else if String.eqb r "safe" then
      {| fuel_l := fuel * 1.2; energy_kwh := None; co2_kg := co2 * 1.2 |}
    else {| fuel_l := fuel; energy_kwh := None; co2_kg := co2 |}.
Proof.
  intros Hship Hmode.
  unfold adjust, vehicle_scaling, mode_and_route, ship_adjustment.
  cbn [Properties.with_route_type vehicle route_type distance_km].
  rewrite Hmode, Hship. cbn [String.eqb Ascii.eqb Bool.eqb].
  destruct (String.eqb r "eco"); [reflexivity|].
  destruct (String.eqb r "safe"); reflexivity.
Qed.

Lemma route_factors_order y :
  (0 <=? y) = true -> (y * 0.85 <=? y) = true /\ (y <=? y * 1.2) = true.
Proof.
  intros Hy. split.
  - apply Binary64Order.mul_le; [assumption|reflexivity..].
  - apply Binary64.mul_ge; [assumption|reflexivity..].
Qed.

(** X5: for a ship and one raw prediction that is not below zero, the
    eco answer is at most the answer of any other route, which is at
    most the safe answer, in [fuel_l] and in [co2_kg]. *)
Theorem ship_route_order (feat : Features) (v : Factors)
    (fuel_l_raw co2_kg_raw : float) (r : string) :
  vehicle feat ∈ Properties.ships ->
  VEHICLE_FACTORS !! vehicle feat = Some v ->
  (0 <=? fuel_l_raw) = true -> (0 <=? co2_kg_raw) = true ->
  r <> "eco" -> r <> "safe" ->
  let eco := adjust (Properties.with_route_type "eco" feat) v fuel_l_raw co2_kg_raw in
  let other := adjust (Properties.with_route_type r feat) v fuel_l_raw co2_kg_raw in
  let safe := adjust (Properties.with_route_type "safe" feat) v fuel_l_raw co2_kg_raw in
  (fuel_l eco <=? fuel_l other) = true
  /\ (fuel_l other <=? fuel_l safe) = true
  /\ (co2_kg eco <=? co2_kg other) = true
  /\ (co2_kg other <=? co2_kg safe) = true.
Proof.
  intros Hship Hlookup Hfuel Hco2 Heco Hsafe.
  assert (Hfacts : energy_mode v = "fuel"
                   /\ (0 <? Py.max 1.0 (co2_factor v / 2.0)) = true
                   /\ (Py.max 1.0 (co2_factor v / 2.0) <? infinity) = true
                   /\ (0 <? co2_factor v) = true
                   /\ (co2_factor v <? infinity) = true).
  { unfold Properties.ships in Hship.
    rewrite !elem_of_cons, elem_of_nil in Hship.
    rewrite Properties.lookup_factors in Hlookup.
    destruct Hship as [Hk|[Hk|[Hk|[]]]]; rewrite Hk in Hlookup;
      injection Hlookup as <-; repeat split. }
  destruct Hfacts as (Hmode & Hm0 & Hmfin & Hc0 & Hcfin).
  apply Properties.elem_of_ships in Hship.
  cbv zeta. rewrite !(ship_adjust_route _ _ _ _ _ Hship Hmode).
  apply String.eqb_neq in Heco, Hsafe. rewrite Heco, Hsafe.
  cbn [String.eqb Ascii.eqb Bool.eqb fuel_l co2_kg].
  pose proof (Binary64Order.mul_nonneg _ _ Hfuel Hm0 Hmfin) as Hf.
  pose proof (Binary64Order.mul_nonneg _ _ Hco2 Hc0 Hcfin) as Hc.
  destruct (route_factors_order _ Hf). destruct (route_factors_order _ Hc).
  repeat split; assumption.
Qed.

Lemma ship_route_order_witness :
  (fuel_l (adjust (Properties.sample "eco" "tanker")
             (mkFactors 700000 10.0 "fuel") 100.0 200.0)
   <=? fuel_l (adjust (Properties.sample "scenic" "tanker")
                 (mkFactors 700000 10.0 "fuel") 100.0 200.0)) = true.
Proof.
  refine (proj1 (ship_route_order (Properties.sample "fast" "tanker")
                   (mkFactors 700000 10.0 "fuel") 100.0 200.0 "scenic"
                   _ eq_refl eq_refl eq_refl _ _)).
  - apply Properties.elem_of_ships. reflexivity.
  - discriminate.
  - discriminate.
Defined.

(** *** What the adjustment reads *)

(** X6: two requests with the same vehicle, route type and distance get
    the same answer whenever the regressor answers the same on their
    rows: elevation, speed, turns, humps, weight and traffic reach the
    regressor only. *)
Theorem answer_reads_three_fields model (feat1 feat2 : Features) (v : Factors) :
  vehicle feat1 = vehicle feat2 ->
  route_type feat1 = route_type feat2 ->
  distance_km feat1 = distance_km feat2 ->
  vehicle_factors feat1 = Returns v ->
  model (feature_row feat1 (weight v) (route_type_val feat1))
  = model (feature_row feat2 (weight v) (route_type_val feat2)) ->
  predict model feat1 = predict model feat2.
Proof.
  intros Hvehicle Hroute Hdistance Hv Hmodel.
  assert (Hv2 : vehicle_factors feat2 = Returns v).
  { rewrite Properties.vehicle_factors_documented in *.
    rewrite <- Hvehicle. exact Hv. }
  rewrite !Properties.predict_stages, Hv, Hv2.
  cbn [mbind outcome_bind bind]. rewrite Hmodel. clear Hmodel.
  destruct (model (feature_row feat2 (weight v) (route_type_val feat2)))
    as [[fuel co2]|e]; [|reflexivity].
  cbn [mbind outcome_bind bind]. f_equal.
  unfold adjust, mode_and_route, ship_adjustment.
  rewrite Hvehicle, Hroute, Hdistance. reflexivity.
Qed.

Lemma answer_reads_three_fields_witness :
  predict (Properties.constant_model 10.0 23.1) (Properties.sample "eco" "ferry")
  = predict (Properties.constant_model 10.0 23.1)
      (mkFeatures 50 900 12 4%Z 9%Z 77 1.5 "eco" "ferry").
Proof.
  exact (answer_reads_three_fields (Properties.constant_model 10.0 23.1)
           (Properties.sample "eco" "ferry")
           (mkFeatures 50 900 12 4%Z 9%Z 77 1.5 "eco" "ferry")
           (mkFactors 100000 5.0 "fuel") eq_refl eq_refl eq_refl eq_refl eq_refl).
Defined.

(** *** Training rows and serving rows *)

Lemma train_lookup_factors k :
  TrainModel.VEHICLE_FACTORS !! k = VEHICLE_FACTORS !! k.
Proof. reflexivity. Qed.

Lemma train_lookup_route k : TrainModel.ROUTE_TYPES !! k = route_map !! k.
Proof. reflexivity. Qed.

(** What [row] returns, read off its definition. *)
Lemma row_done s r :
  Trainer.row s = Runtime.Done r ->
  exists (v : Factors) (code : Z) (fuel co2 : float),
    VEHICLE_FACTORS !! Trainer.vehicle s = Some v
    /\ route_map !! Trainer.route_type s = Some code
    /\ r = [ Float (Trainer.distance_km s); Float (Trainer.elevation_gain_m s);
             Float (Trainer.avg_speed_kph s); Int (Trainer.turns s);
             Int (Trainer.humps s); Int (weight v);
             Float (Trainer.traffic_index s); Int code; Float fuel; Float co2 ].
Proof.
  unfold Trainer.row, Runtime.getitem.
  rewrite train_lookup_factors, train_lookup_route.
  destruct (VEHICLE_FACTORS !! Trainer.vehicle s) as [v|]; [|discriminate].
  cbn [mbind result_bind Runtime.bind].
  destruct (Runtime.int_truediv (weight v) 1000) as [w|e]; [|discriminate].
  cbn [mbind result_bind Runtime.bind].
  destruct (route_map !! Trainer.route_type s) as [code|].
  - destruct (String.eqb (Trainer.route_type s) "eco");
      [|destruct (String.eqb (Trainer.route_type s) "safe")];
      cbn [mbind result_bind Runtime.bind]; intros [= <-];
      eexists _, _, _, _; repeat split; reflexivity.
  - destruct (String.eqb (Trainer.route_type s) "eco");
      [|destruct (String.eqb (Trainer.route_type s) "safe")];
      discriminate.
Qed.

(** X7: a row that the trainer appends has ten entries, and its first
    eight are exactly the row on which the server calls the regressor
    for a request with the same trip, vehicle and route type, whatever
    the request's [weight_kg]. *)
Theorem training_row_is_serving_row model (s : Trainer.Sample) (w : float)
    (r : list num) :
  Trainer.row s = Runtime.Done r ->
  length r = 10%nat
  /\ exists v : Factors,
       vehicle_factors (request_of s w) = Returns v
       /\ feature_row (request_of s w) (weight v)
            (route_type_val (request_of s w)) = take 8 r
       /\ predict model (request_of s w)
          = ('(fuel, co2) ← model (take 8 r);
             Returns (adjust (request_of s w) v fuel co2)).
Proof.
  intros Hrow.
  destruct (row_done s r Hrow) as (v & code & fuel & co2 & Hv & Hcode & ->).
  split; [reflexivity|]. exists v.
  assert (Hfactors : vehicle_factors (request_of s w) = Returns v).
  { unfold vehicle_factors, getitem, get. rewrite (Properties.lookup_factors "car").
    cbn [request_of vehicle]. rewrite Hv. reflexivity. }
  assert (Hval : route_type_val (request_of s w) = code).
  { unfold route_type_val, get. cbn [request_of route_type].
    rewrite Hcode. reflexivity. }
  split; [exact Hfactors|]. split.
  - rewrite Hval. reflexivity.
  - rewrite Properties.predict_stages, Hfactors, Hval. reflexivity.
Qed.

Lemma training_row_is_serving_row_witness :
  exists r : list num,
    Trainer.row (Trainer.mkSample 120 30 60 4 2 1.5 "ferry" "safe" 0.01 (-0.02))
    = Runtime.Done r
    /\ feature_row
         (request_of (Trainer.mkSample 120 30 60 4 2 1.5 "ferry" "safe" 0.01 (-0.02)) 77)
         100000 2
       = take 8 r.
Proof.
  eexists. split; [vm_compute; reflexivity|].
  destruct (training_row_is_serving_row (Properties.constant_model 1 1)
              (Trainer.mkSample 120 30 60 4 2 1.5 "ferry" "safe" 0.01 (-0.02))
              77 _ eq_refl) as (_ & v & Hv & Hrow & _).
  injection Hv as <-. exact Hrow.
Defined.

(** *** The generated data *)

Lemma table_weight_div k v :
  VEHICLE_FACTORS !! k = Some v ->
  exists w : float, Runtime.int_truediv (weight v) 1000 = Runtime.Done w.
Proof.
  rewrite Properties.lookup_factors.
  repeat match goal with
         | |- context [String.eqb k ?x] => destruct (String.eqb k x)
         end;
    intros [= <-]; eexists; vm_compute; reflexivity.
Qed.

Lemma row_defined s :
  is_Some (TrainModel.VEHICLE_FACTORS !! Trainer.vehicle s) ->
  is_Some (TrainModel.ROUTE_TYPES !! Trainer.route_type s) ->
  exists r : list num, Trainer.row s = Runtime.Done r /\ length r = 10%nat.
Proof.
  intros [v Hv] [code Hcode].
  destruct (table_weight_div _ _ Hv) as [w Hw].
  unfold Trainer.row, Runtime.getitem. rewrite Hv, Hcode.
  cbn [mbind result_bind Runtime.bind]. rewrite Hw.
  cbn [mbind result_bind Runtime.bind].
  destruct (String.eqb (Trainer.route_type s) "eco");
    [|destruct (String.eqb (Trainer.route_type s) "safe")];
    eexists; split; reflexivity.
Qed.

Lemma collect_defined samples :
  Forall (fun s => is_Some (TrainModel.VEHICLE_FACTORS !! Trainer.vehicle s)
                   /\ is_Some (TrainModel.ROUTE_TYPES !! Trainer.route_type s))
    samples ->
  exists rows : list (list num),
    Trainer.collect samples = Runtime.Done rows
    /\ length rows = length samples
    /\ Forall (fun r => length r = 10%nat) rows.
Proof.
  induction 1 as [|s rest [Hv Hr] _ (rows & Hrows & Hlen & Hwide)].
  - exists []. repeat split. constructor.
  - destruct (row_defined s Hv Hr) as (r & Hrow & Hten).
    exists (r :: rows). cbn [Trainer.collect]. rewrite Hrow.
    cbn [mbind result_bind Runtime.bind]. rewrite Hrows.
    cbn [mbind result_bind Runtime.bind length].
    repeat split; [congruence|]. constructor; assumption.
Qed.

(** X8: when every draw names a vehicle and a route type of the tables,
    [generate_data(n)] raises nothing and returns a frame of ten columns
    and [n] rows (none for [n <= 0]), each row as wide as the frame. *)
Theorem generate_data_shape (draws : nat -> Trainer.Sample) (n : Z) :
  (forall i : nat, (i < Z.to_nat n)%nat ->
     is_Some (TrainModel.VEHICLE_FACTORS !! Trainer.vehicle (draws i))
     /\ is_Some (TrainModel.ROUTE_TYPES !! Trainer.route_type (draws i))) ->
  exists df : Trainer.DataFrame,
    Trainer.generate_data draws n = Runtime.Done df
    /\ length (Trainer.columns df) = 10%nat
    /\ length (Trainer.values df) = Z.to_nat n
    /\ Forall (fun r => length r = length (Trainer.columns df)) (Trainer.values df).
Proof.
  intros Hdraws.
  destruct (collect_defined (map draws (seq 0 (Z.to_nat n))))
    as (rows & Hrows & Hlen & Hwide).
  { apply List.Forall_map, List.Forall_forall. intros i Hi.
    apply List.in_seq in Hi. apply Hdraws. lia. }
  unfold Trainer.generate_data. rewrite Hrows.
  cbn [mbind result_bind Runtime.bind]. eexists. split; [reflexivity|].
  cbn [Trainer.columns Trainer.values]. split; [reflexivity|]. split.
  - rewrite Hlen, List.length_map, List.length_seq. reflexivity.
  - exact Hwide.
Qed.

Lemma generate_data_shape_witness :
  exists df : Trainer.DataFrame,
    Trainer.generate_data
      (fun _ => Trainer.mkSample 120 30 60 4 2 1.5 "ev" "eco" 0.01 (-0.02)) 3
    = Runtime.Done df
    /\ length (Trainer.columns df) = 10%nat
    /\ length (Trainer.values df) = 3%nat
    /\ Forall (fun r => length r = length (Trainer.columns df)) (Trainer.values df).
Proof.
  apply (generate_data_shape
           (fun _ => Trainer.mkSample 120 30 60 4 2 1.5 "ev" "eco" 0.01 (-0.02)) 3).
  intros i _. split; eexists; reflexivity.
Defined.

(** *** The split into features and targets *)

Lemma drop_targets rows :
  Trainer.drop_columns target_labels
    (Trainer.mkDataFrame (feature_labels ++ target_labels) rows)
  = Runtime.Done
      (Trainer.mkDataFrame feature_labels
         (map (Trainer.pick (fun l => negb (contains target_labels l))
                 (feature_labels ++ target_labels)) rows)).
Proof. reflexivity. Qed.

Lemma select_targets rows :
  Trainer.select_columns target_labels
    (Trainer.mkDataFrame (feature_labels ++ target_labels) rows)
  = Runtime.Done
      (Trainer.mkDataFrame target_labels
         (map (fun r =>
                 flat_map (fun l => Trainer.pick (String.eqb l)
                                      (feature_labels ++ target_labels) r)
                   target_labels) rows)).
Proof. reflexivity. Qed.

Lemma wide_row_split (r : list num) :
  length r = 10%nat ->
  Trainer.pick (fun l => negb (contains target_labels l))
    (feature_labels ++ target_labels) r = take 8 r
  /\ flat_map (fun l => Trainer.pick (String.eqb l)
                          (feature_labels ++ target_labels) r) target_labels
     = drop 8 r.
Proof.
  intros Hlen.
  do 10 (destruct r as [|? r]; [discriminate Hlen|]).
  destruct r; [|discriminate Hlen].
  split; reflexivity.
Qed.

(** X9: on a frame with the ten columns of [generate_data] and rows as
    wide, dropping the two target columns and selecting them splits every
    row after its eighth entry: [X] keeps the first eight under the
    feature labels, [y] the last two, so that no entry is lost or shared. *)
Theorem split_after_eighth (df : Trainer.DataFrame) :
  Trainer.columns df = feature_labels ++ target_labels ->
  Forall (fun r => length r = 10%nat) (Trainer.values df) ->
  exists X y : Trainer.DataFrame,
    Trainer.drop_columns target_labels df = Runtime.Done X
    /\ Trainer.select_columns target_labels df = Runtime.Done y
    /\ Trainer.columns X = feature_labels
    /\ Trainer.columns y = target_labels
    /\ Trainer.values X = map (take 8) (Trainer.values df)
    /\ Trainer.values y = map (drop 8) (Trainer.values df)
    /\ zip_with app (Trainer.values X) (Trainer.values y) = Trainer.values df.
Proof.
  destruct df as [cols rows]. cbn [Trainer.columns Trainer.values].
  intros -> Hwide.
  rewrite drop_targets, select_targets.
  eexists _, _. split; [reflexivity|]. split; [reflexivity|].
  cbn [Trainer.columns Trainer.values].
  split; [reflexivity|]. split; [reflexivity|].
  assert (HX : map (Trainer.pick (fun l => negb (contains target_labels l))
                      (feature_labels ++ target_labels)) rows
               = map (take 8) rows).
  { apply List.map_ext_Forall. eapply List.Forall_impl; [|exact Hwide].
    intros r Hr. apply (wide_row_split r Hr). }
  assert (Hy : map (fun r => flat_map (fun l => Trainer.pick (String.eqb l)
                                         (feature_labels ++ target_labels) r)
                                target_labels) rows
               = map (drop 8) rows).
  { apply List.map_ext_Forall. eapply List.Forall_impl; [|exact Hwide].
    intros r Hr. apply (wide_row_split r Hr). }
  rewrite HX, Hy. split; [reflexivity|]. split; [reflexivity|].
  clear. induction rows as [|r rows IH]; [reflexivity|].
  cbn [map zip_with]. rewrite IH, take_drop. reflexivity.
Qed.

Lemma split_after_eighth_witness :
  exists X y : Trainer.DataFrame,
    Trainer.drop_columns target_labels
      (Trainer.mkDataFrame (feature_labels ++ target_labels)
         [[Float 1; Float 2; Float 3; Int 4; Int 5; Int 6; Float 7; Int 8;
           Float 9; Float 10]]) = Runtime.Done X
    /\ Trainer.select_columns target_labels
         (Trainer.mkDataFrame (feature_labels ++ target_labels)
            [[Float 1; Float 2; Float 3; Int 4; Int 5; Int 6; Float 7; Int 8;
              Float 9; Float 10]]) = Runtime.Done y
    /\ Trainer.values X
       = [[Float 1; Float 2; Float 3; Int 4; Int 5; Int 6; Float 7; Int 8]]
    /\ Trainer.values y = [[Float 9; Float 10]].
Proof.
  destruct (split_after_eighth
              (Trainer.mkDataFrame (feature_labels ++ target_labels)
                 [[Float 1; Float 2; Float 3; Int 4; Int 5; Int 6; Float 7; Int 8;
                   Float 9; Float 10]]))
    as (X & y & HX & Hy & _ & _ & HvX & Hvy & _).
  - reflexivity.
  - repeat constructor.
  - exists X, y. repeat split; assumption.
Defined.

(** *** From the training run to the start of the server *)

Lemma collect_length samples rows :
  Trainer.collect samples = Runtime.Done rows -> length rows = length samples.
Proof.
  revert rows. induction samples as [|s rest IH]; intros rows.
  - intros [= <-]. reflexivity.
  - cbn [Trainer.collect].
    destruct (Trainer.row s) as [r|e]; [|discriminate].
    cbn [mbind result_bind Runtime.bind].
    destruct (Trainer.collect rest) as [rows'|e]; [|discriminate].
    cbn [mbind result_bind Runtime.bind]. intros [= <-].
    cbn [length]. rewrite (IH rows' eq_refl). reflexivity.
Qed.

Lemma generate_data_done draws n df :
  Trainer.generate_data draws n = Runtime.Done df ->
  exists rows : list (list num),
    df = Trainer.mkDataFrame (feature_labels ++ target_labels) rows
    /\ length rows = Z.to_nat n.
Proof.
  unfold Trainer.generate_data.
  destruct (Trainer.collect _) as [rows|e] eqn:Hrows; [|discriminate].
  cbn [mbind result_bind Runtime.bind]. intros [= <-].
  exists rows. split; [reflexivity|].
  rewrite (collect_length _ _ Hrows), List.length_map, List.length_seq.
  reflexivity.
Qed.

(** The first call of a run that has returned, has returned. *)
Ltac first_call H split :=
  match type of H with
  | mbind _ ?c = Runtime.Done _ =>
      split c; [cbn [mbind result_bind Runtime.bind] in H | discriminate H]
  end.



(** *** Labels of electric samples *)

(** X12: for a sample of the vehicle ["ev"] the [co2_kg] label of the
    row is the base CO2 times the factor [0.0] of the table: a zero when
    the base CO2 is finite, and not a number exactly when the base CO2 is
    an infinity or not a number. *)
Theorem ev_label_has_no_emission (s : Trainer.Sample) (r : list num) :
  Trainer.vehicle s = "ev" ->
  Trainer.row s = Runtime.Done r ->
  exists fuel co2 : float,
    drop 8 r = [Float fuel; Float co2]
    /\ co2 = ev_base_co2 s * 0.0
    /\ ((abs (ev_base_co2 s) <? infinity) = true -> (co2 =? 0) = true)
    /\ ((abs (ev_base_co2 s) <? infinity) = false -> co2 = nan).
Proof.
  intros Hev. unfold Trainer.row, Runtime.getitem. rewrite Hev.
  change (TrainModel.VEHICLE_FACTORS !! "ev")
    with (Some (mkFactors 1800 0.0 "electric")).
  cbn [mbind result_bind Runtime.bind weight co2_factor energy_mode].
  change (Runtime.int_truediv 1800 1000) with (Runtime.Done 1.8).
  cbn [mbind result_bind Runtime.bind].
  destruct (TrainModel.ROUTE_TYPES !! Trainer.route_type s) as [code|];
    [|destruct (String.eqb (Trainer.route_type s) "eco");
      [|destruct (String.eqb (Trainer.route_type s) "safe")]; discriminate].
  unfold ev_base_co2.
  destruct (String.eqb (Trainer.route_type s) "eco");
    [|destruct (String.eqb (Trainer.route_type s) "safe")];
    cbn [mbind result_bind Runtime.bind]; intros [= <-];
    eexists _, _; (split; [reflexivity|]); (split; [reflexivity|]);
    (split; [apply Binary64Order.mul_zero_finite
            |apply Binary64Order.mul_zero_not_finite]).
Qed.

Lemma ev_label_has_no_emission_witness :
  exists (r : list num) (fuel co2 : float),
    Trainer.row (Trainer.mkSample 120 30 60 4 2 1.5 "ev" "eco" 0.01 (-0.02))
    = Runtime.Done r
    /\ drop 8 r = [Float fuel; Float co2]
    /\ (co2 =? 0) = true.
Proof.
  eexists.
  destruct (ev_label_has_no_emission
              (Trainer.mkSample 120 30 60 4 2 1.5 "ev" "eco" 0.01 (-0.02))
              _ eq_refl eq_refl) as (fuel & co2 & Hdrop & _ & Hzero & _).
  exists fuel, co2. split; [reflexivity|]. split; [exact Hdrop|].
  apply Hzero. reflexivity.
Defined.

End Behaviour.
